(** * Substack proxy: the content-resolution pipeline of [app.py]

    A shallow embedding of [_readability_extract] and [get_post] and of the
    Python values they manipulate, followed by the properties that the
    specification states about them.

    Conventions.
    - A Python [str] is a Rocq [string] holding the UTF-8 encoding of the
      text, so that [text.encode("utf-8")] is the list of its bytes; a
      [str] that UTF-8 cannot encode (a lone surrogate) has no counterpart.
    - [None] is [None]; an [Optional[str]] is an [option string]. A value
      that comes from the substack_api library is a [pyval]: the library
      promises no type, and [get_post] finds out at run time.
    - An exception is a value of type [exn]; code that may raise returns an
      [outcome]; code that also talks to the outside world runs in the
      monad [M], which threads the log of the calls made so far.
    - The libraries ([httpx], [substack_api], [bs4], [urllib]) and the
      network are a [World]: what each call answers during one request.
      The constant arguments of the HTTP client (headers, timeout,
      [follow_redirects=True]) are part of that world. *)

From Stdlib Require Import ZArith List Ascii String Bool Lia.
From stdpp Require Import base option gmap strings.

Import ListNotations.
Local Open Scope string_scope.
Local Open Scope Z_scope.

(* ===================================================================== *)
(** ** Python strings *)
(* ===================================================================== *)

Module PyStr.

(** The quotation mark, and the newline that [get_text] joins with. *)
Definition dquote : string := String "034"%char EmptyString.
Definition newline : string := String "010"%char EmptyString.

(** Truth value of a [str]: only the empty string is false. *)
Definition truthy (s : string) : bool :=
  match s with EmptyString => false | String _ _ => true end.

(** Truth value of an [Optional[str]]. *)
Definition truthy_opt (o : option string) : bool :=
  match o with None => false | Some s => truthy s end.

(** [str.isspace] on the code points below 128:
    TAB, LF, VT, FF, CR, FS, GS, RS, US and the space. *)
Definition is_space (c : ascii) : bool :=
  let n := Z.of_N (N_of_ascii c) in
  ((9 <=? n) && (n <=? 13)) || ((28 <=? n) && (n <=? 32)).

(** Whitespace code points that take two bytes in UTF-8:
    U+0085 (C2 85) and U+00A0 (C2 A0). *)
Definition is_space2 (c1 c2 : ascii) : bool :=
  let a := Z.of_N (N_of_ascii c1) in
  let b := Z.of_N (N_of_ascii c2) in
  (a =? 194) && ((b =? 133) || (b =? 160)).

(** Whitespace code points that take three bytes in UTF-8: U+1680,
    U+2000..U+200A, U+2028, U+2029, U+202F, U+205F and U+3000. *)
Definition is_space3 (c1 c2 c3 : ascii) : bool :=
  let a := Z.of_N (N_of_ascii c1) in
  let b := Z.of_N (N_of_ascii c2) in
  let c := Z.of_N (N_of_ascii c3) in
  ((a =? 225) && (b =? 154) && (c =? 128))
  || ((a =? 226) && (b =? 128)
      && (((128 <=? c) && (c <=? 138)) || (c =? 168) || (c =? 169) || (c =? 175)))
  || ((a =? 226) && (b =? 129) && (c =? 159))
  || ((a =? 227) && (b =? 128) && (c =? 128)).

(** [s.lstrip()] *)
Fixpoint lstrip (s : string) : string :=
  match s with
  | EmptyString => s
  | String c1 r1 =>
      if is_space c1 then lstrip r1 else
      match r1 with
      | EmptyString => s
      | String c2 r2 =>
          if is_space2 c1 c2 then lstrip r2 else
          match r2 with
          | EmptyString => s
          | String c3 r3 => if is_space3 c1 c2 c3 then lstrip r3 else s
          end
      end
  end.

Fixpoint rev_acc (s acc : string) : string :=
  match s with
  | EmptyString => acc
  | String c r => rev_acc r (String c acc)
  end.

Definition rev (s : string) : string := rev_acc s EmptyString.

(** The same scan on the reversed string, where the bytes of a code point
    come last byte first. *)
Fixpoint lstrip_rev (s : string) : string :=
  match s with
  | EmptyString => s
  | String c1 r1 =>
      if is_space c1 then lstrip_rev r1 else
      match r1 with
      | EmptyString => s
      | String c2 r2 =>
          if is_space2 c2 c1 then lstrip_rev r2 else
          match r2 with
          | EmptyString => s
          | String c3 r3 => if is_space3 c3 c2 c1 then lstrip_rev r3 else s
          end
      end
  end.

(** [s.rstrip()] *)
Definition rstrip (s : string) : string := rev (lstrip_rev (rev s)).

(** [s.strip()] *)
Definition strip (s : string) : string := rstrip (lstrip s).

(** [sep.join(l)] *)
Fixpoint join (sep : string) (l : list string) : string :=
  match l with
  | [] => EmptyString
  | [x] => x
  | x :: rest => x ++ sep ++ join sep rest
  end.

(** [needle in hay] *)
Definition contains (hay needle : string) : Prop :=
  exists before after, hay = before ++ needle ++ after.

(** [text.encode("utf-8")] *)
Definition encode_utf8 (s : string) : list Z :=
  map (fun c => Z.of_N (N_of_ascii c)) (list_ascii_of_string s).

End PyStr.

(* ===================================================================== *)
(** ** hashlib.sha256 *)
(* ===================================================================== *)

(** [hashlib.sha256(data).hexdigest()], following FIPS 180-4. Words are
    32-bit integers kept in [Z], reduced modulo 2^32 after every addition. *)
Module SHA256.

Definition wrap (x : Z) : Z := x mod 2 ^ 32.

Definition add (x y : Z) : Z := wrap (x + y).

Definition rotr (n x : Z) : Z :=
  Z.lor (Z.shiftr x n) (wrap (Z.shiftl x (32 - n))).

Definition complement (x : Z) : Z := Z.lxor x 0xffffffff.

Definition Ch (x y z : Z) : Z :=
  Z.lxor (Z.land x y) (Z.land (complement x) z).

Definition Maj (x y z : Z) : Z :=
  Z.lxor (Z.lxor (Z.land x y) (Z.land x z)) (Z.land y z).

Definition Sigma0 (x : Z) : Z :=
  Z.lxor (Z.lxor (rotr 2 x) (rotr 13 x)) (rotr 22 x).

Definition Sigma1 (x : Z) : Z :=
  Z.lxor (Z.lxor (rotr 6 x) (rotr 11 x)) (rotr 25 x).

Definition sigma0 (x : Z) : Z :=
  Z.lxor (Z.lxor (rotr 7 x) (rotr 18 x)) (Z.shiftr x 3).

Definition sigma1 (x : Z) : Z :=
  Z.lxor (Z.lxor (rotr 17 x) (rotr 19 x)) (Z.shiftr x 10).

(** The primes up to 311: the first sixty-four. *)
Definition is_prime (n : Z) : bool :=
  forallb (fun d => negb (n mod d =? 0)) (map Z.of_nat (seq 2 (Z.to_nat n - 2))).

Definition primes : list Z := List.filter is_prime (map Z.of_nat (seq 2 310)).

(** The integer cube root, one bit at a time from bit [n - 1] down. *)
Fixpoint cbrt_bits (n : nat) (x r : Z) : Z :=
  match n with
  | O => r
  | S m =>
      let c := r + 2 ^ Z.of_nat m in
      if c * c * c <=? x then cbrt_bits m x c else cbrt_bits m x r
  end.

(** The first 32 bits of the fractional part of the cube root of [p]. *)
Definition frac_cbrt (p : Z) : Z := wrap (cbrt_bits 40 (p * 2 ^ 96) 0).

(** The first 32 bits of the fractional part of the square root of [p]. *)
Definition frac_sqrt (p : Z) : Z := wrap (Z.sqrt (p * 2 ^ 64)).

(** The round constants: from the cube roots of the first 64 primes. *)
Definition K : list Z := Eval vm_compute in map frac_cbrt primes.

(** The initial hash value: from the square roots of the first 8 primes. *)
Definition H0 : list Z := Eval vm_compute in map frac_sqrt (firstn 8 primes).

(** Big-endian bytes of [x], [n] of them. *)
Fixpoint be_bytes (n : nat) (x : Z) : list Z :=
  match n with
  | O => []
  | S m => be_bytes m (Z.shiftr x 8) ++ [Z.land x 0xff]
  end.

(** The message followed by the byte 0x80, zero bytes up to 56 modulo 64,
    and the bit length of the message on eight bytes. *)
Definition pad (msg : list Z) : list Z :=
  let len := Z.of_nat (length msg) in
  let zeros := Z.to_nat ((55 - len) mod 64) in
  msg ++ [0x80] ++ repeat 0 zeros ++ be_bytes 8 (8 * len).

(** Big-endian 32-bit words of a byte string. *)
Fixpoint words (bs : list Z) : list Z :=
  match bs with
  | a :: b :: c :: d :: rest =>
      Z.lor (Z.shiftl a 24) (Z.lor (Z.shiftl b 16) (Z.lor (Z.shiftl c 8) d))
      :: words rest
  | _ => []
  end.

(** Blocks of sixteen words; [n] bounds the number of blocks. *)
Fixpoint blocks (n : nat) (ws : list Z) : list (list Z) :=
  match n, ws with
  | _, [] => []
  | O, _ => []
  | S m, _ => firstn 16 ws :: blocks m (skipn 16 ws)
  end.

Definition nthw (l : list Z) (i : nat) : Z := nth i l 0.

(** The message schedule: [w] holds W_0 .. W_(t-1); each step appends W_t. *)
Fixpoint schedule (n : nat) (w : list Z) : list Z :=
  match n with
  | O => w
  | S m =>
      let t := length w in
      let wt := add (add (sigma1 (nthw w (t - 2))) (nthw w (t - 7)))
                    (add (sigma0 (nthw w (t - 15))) (nthw w (t - 16))) in
      schedule m (w ++ [wt])
  end.

Record regs := Regs { ra : Z; rb : Z; rc : Z; rd : Z; re : Z; rf : Z; rg : Z; rh : Z }.

Definition round (s : regs) (kw : Z * Z) : regs :=
  let '(k, w) := kw in
  let t1 := add (add (add (add (rh s) (Sigma1 (re s))) (Ch (re s) (rf s) (rg s))) k) w in
  let t2 := add (Sigma0 (ra s)) (Maj (ra s) (rb s) (rc s)) in
  Regs (add t1 t2) (ra s) (rb s) (rc s) (add (rd s) t1) (re s) (rf s) (rg s).

Definition compress (h : list Z) (block : list Z) : list Z :=
  let w := schedule 48 block in
  let s0 := Regs (nthw h 0) (nthw h 1) (nthw h 2) (nthw h 3)
                 (nthw h 4) (nthw h 5) (nthw h 6) (nthw h 7) in
  let s := fold_left round (combine K w) s0 in
  [ add (nthw h 0) (ra s); add (nthw h 1) (rb s); add (nthw h 2) (rc s);
    add (nthw h 3) (rd s); add (nthw h 4) (re s); add (nthw h 5) (rf s);
    add (nthw h 6) (rg s); add (nthw h 7) (rh s) ].

Definition digest_words (msg : list Z) : list Z :=
  let ws := words (pad msg) in
  fold_left compress (blocks (length ws) ws) H0.

Definition hex_digit (n : Z) : ascii :=
  if n <? 10 then ascii_of_N (Z.to_N (48 + n)) else ascii_of_N (Z.to_N (87 + n)).

Fixpoint hex_of_bytes (bs : list Z) : string :=
  match bs with
  | [] => EmptyString
  | b :: rest =>
      String (hex_digit (Z.shiftr b 4)) (String (hex_digit (Z.land b 15)) (hex_of_bytes rest))
  end.

(** [hashlib.sha256(msg).hexdigest()] *)
Definition hexdigest (msg : list Z) : string :=
  hex_of_bytes (flat_map (be_bytes 4) (digest_words msg)).

End SHA256.

(** [hashlib.sha256(text.encode("utf-8")).hexdigest()] *)
Definition sha256_hex (text : string) : string :=
  SHA256.hexdigest (PyStr.encode_utf8 text).

(* ===================================================================== *)
(** ** Exceptions, outcomes and the call log *)
(* ===================================================================== *)

(** An exception caught by [except Exception as e]; [str e] is [str(e)],
    the only thing the handlers use. *)
Record exn := Exception { str : string }.

(** The result of code that may raise an [E]. *)
Inductive outcome (E A : Type) : Type :=
| Ret (a : A)
| Raise (e : E).

Arguments Ret {E A} a.
Arguments Raise {E A} e.

#[global] Instance outcome_ret {E} : MRet (outcome E) := fun A a => Ret a.

#[global] Instance outcome_bind {E} : MBind (outcome E) :=
  fun A B f m => match m with Ret a => f a | Raise e => Raise e end.

(** [raise AttributeError]: what Python does for [None.name]. *)
Definition AttributeError (name : string) : exn :=
  Exception ("'NoneType' object has no attribute '" ++ name ++ "'").

(** [o.name] where [o] may be [None] and [f] is what the attribute (or the
    method call) yields on an object. *)
Definition getattr {A B} (o : option A) (name : string) (f : A -> B) : outcome exn B :=
  match o with
  | Some a => Ret (f a)
  | None => Raise (AttributeError name)
  end.

(** [a or b] on values that are [None] or an object that is always true. *)
Definition or_else {A} (a b : option A) : option A :=
  match a with Some _ => a | None => b end.

(** The calls a request makes to the outside world. *)
Inductive call : Type :=
| ClientGet (url : string)                    (* client.get(url) *)
| PostInit (url : string)                     (* Post(url) *)
| GetMetadata (url : string)                  (* p.get_metadata() *)
| GetContent (url : string) (as_html : bool). (* p.get_content(as_html=...) *)

(** Code that talks to the outside world: it reads the log of the calls made
    so far, and returns an outcome and the extended log. *)
Definition M (E A : Type) : Type := list call -> outcome E A * list call.

#[global] Instance M_ret {E} : MRet (M E) := fun A a log => (Ret a, log).

#[global] Instance M_bind {E} : MBind (M E) :=
  fun A B f m log =>
    match m log with
    | (Ret a, log') => f a log'
    | (Raise e, log') => (Raise e, log')
    end.

(** [raise e] *)
Definition throw {E A} (e : E) : M E A := fun log => (Raise e, log).

(** A pure computation that may raise, run inside [M]. *)
Definition lift {E A} (o : outcome E A) : M E A := fun log => (o, log).

(** [try: body  except Exception as e: handler e] *)
Definition try_except {E E' A} (body : M E A) (handler : E -> M E' A) : M E' A :=
  fun log =>
    match body log with
    | (Ret a, log') => (Ret a, log')
    | (Raise e, log') => handler e log'
    end.

(** One call to the outside world: its answer, and the call logged. *)
Definition perform {E A} (c : call) (answer : list call -> outcome E A) : M E A :=
  fun log => (answer log, (log ++ [c])%list).

(* ===================================================================== *)
(** ** BeautifulSoup trees *)
(* ===================================================================== *)

(** The classes of string that a tree holds; [get_text] keeps the first two. *)
Inductive string_kind : Type :=
| NavigableString | CData | Comment | Declaration | Doctype
| ProcessingInstruction | Script | Stylesheet | TemplateString.

Definition interesting (k : string_kind) : bool :=
  match k with NavigableString | CData => true | _ => false end.

(** A page element: a string or a tag with its attributes and contents.
    The [BeautifulSoup] object is itself a tag, named [[document]]. *)
#[warnings="-register-all"]
Inductive node : Type :=
| Str (kind : string_kind) (s : string)
| Tag (name : string) (attrs : gmap string string) (contents : list node).

(** First [Some] of [f] over a list, in order. *)
Definition first_some {A B} (f : A -> option B) : list A -> option B :=
  fix go (l : list A) : option B :=
    match l with
    | [] => None
    | a :: rest => match f a with Some b => Some b | None => go rest end
    end.

(** The first tag called [name] among [n] and its descendants, in document
    order. *)
Fixpoint find_from (name : string) (n : node) : option node :=
  match n with
  | Str _ _ => None
  | Tag nm _ cs => if String.eqb nm name then Some n else first_some (find_from name) cs
  end.

(** [tag.find(name)]: the first descendant of [tag] called [name]. *)
Definition find (name : string) (t : node) : option node :=
  match t with
  | Str _ _ => None
  | Tag _ _ cs => first_some (find_from name) cs
  end.

(** [tag.string]: the string of a tag whose only child is a string, or whose
    only child is a tag that has one; [None] otherwise. *)
Fixpoint dot_string (n : node) : option string :=
  match n with
  | Str _ s => Some s
  | Tag _ _ [c] => dot_string c
  | Tag _ _ _ => None
  end.

(** [tag.get(key)] *)
Definition get (key : string) (t : node) : option string :=
  match t with
  | Str _ _ => None
  | Tag _ a _ => a !! key
  end.

(** The strings [get_text] collects with [strip=True]: every descendant
    string of an interesting class, stripped, the empty ones dropped. *)
Fixpoint all_strings (n : node) : list string :=
  match n with
  | Str k s =>
      if interesting k
      then (let t := PyStr.strip s in if PyStr.truthy t then [t] else [])
      else []
  | Tag _ _ cs => flat_map all_strings cs
  end.

(** [tag.get_text(separator, strip=True)] *)
Definition get_text (separator : string) (t : node) : string :=
  PyStr.join separator (all_strings t).

(* ===================================================================== *)
(** ** [_readability_extract] *)
(* ===================================================================== *)

Section Readability.

(** [BeautifulSoup(html, "html.parser")]: the tree, or the exception the
    parser raises when it cannot build one. *)
Variable BeautifulSoup : string -> outcome exn node.

Definition _readability_extract (html : string)
  : outcome exn (string * option string * option string) :=
  soup ← BeautifulSoup html;
  (* title = soup.title.string.strip() if soup.title and soup.title.string else None *)
  cond ← match find "title" soup with
          | None => mret false
          | Some _ => s ← getattr (find "title" soup) "string" dot_string;
                      mret (PyStr.truthy_opt s)
          end;
  title ← (if cond : bool
           then s ← getattr (find "title" soup) "string" dot_string;
                t ← getattr s "strip" PyStr.strip;
                mret (Some t)
           else mret None);
  (* article = soup.find("article") or soup.find("main") or soup.body *)
  let article := or_else (or_else (find "article" soup) (find "main" soup))
                         (find "body" soup) in
  (* img = (article and article.find("img")) or soup.find("img") *)
  in_article ← match article with
                | None => mret None
                | Some _ => getattr article "find" (find "img")
                end;
  let img := or_else in_article (find "img" soup) in
  (* hero = img.get("src") if img and img.get("src") else None *)
  cond ← match img with
          | None => mret false
          | Some _ => src ← getattr img "get" (get "src");
                      mret (PyStr.truthy_opt src)
          end;
  hero ← (if cond : bool then getattr img "get" (get "src") else mret None);
  (* text = article.get_text("\n", strip=True) if article
            else soup.get_text("\n", strip=True) *)
  text ← match article with
          | Some _ => getattr article "get_text" (get_text PyStr.newline)
          | None => mret (get_text PyStr.newline soup)
          end;
  mret (text, title, hero).

End Readability.

(* ===================================================================== *)
(** ** Python values *)
(* ===================================================================== *)

(** What the substack_api library may hand back: the values of JSON. *)
#[warnings="-register-all"]
Inductive pyval : Type :=
| PyNone
| PyBool (b : bool)
| PyInt (n : Z)
| PyStr (s : string)
| PyList (items : list pyval)
| PyDict (items : gmap string pyval).

(** The truth value of [v], as [if v] and [v or ...] test it. *)
Definition truth (v : pyval) : bool :=
  match v with
  | PyNone => false
  | PyBool b => b
  | PyInt n => negb (n =? 0)
  | PyStr s => PyStr.truthy s
  | PyList items => match items with [] => false | _ => true end
  | PyDict items => negb (Nat.eqb (size items) 0)
  end.

(** [type(v).__name__] *)
Definition type_name (v : pyval) : string :=
  match v with
  | PyNone => "NoneType"
  | PyBool _ => "bool"
  | PyInt _ => "int"
  | PyStr _ => "str"
  | PyList _ => "list"
  | PyDict _ => "dict"
  end.

(** The [AttributeError] for [v.name] when [v] has no such attribute. *)
Definition no_attribute (v : pyval) (name : string) : exn :=
  Exception ("'" ++ type_name v ++ "' object has no attribute '" ++ name ++ "'").

(** [md.get(key)]: only a dictionary has [get]; a missing key gives
    [None]. *)
Definition dict_get (md : pyval) (key : string) : outcome exn pyval :=
  match md with
  | PyDict items => Ret (default PyNone (items !! key))
  | _ => Raise (no_attribute md "get")
  end.

(** [text.encode("utf-8")]: only a string has [encode]. *)
Definition str_encode (text : pyval) : outcome exn (list Z) :=
  match text with
  | PyStr s => Ret (PyStr.encode_utf8 s)
  | _ => Raise (no_attribute text "encode")
  end.

(** [a or b] *)
Definition py_or (a b : pyval) : pyval := if truth a then a else b.

(** Does pydantic (version 2) take [v] for a field declared
    [Optional[str]]? It takes [None] and strings, and no other value of
    JSON. *)
Definition is_optional_str (v : pyval) : bool :=
  match v with
  | PyNone | PyStr _ => true
  | _ => false
  end.

(** The field that a valid value gives. *)
Definition as_optional_str (v : pyval) : option string :=
  match v with
  | PyStr s => Some s
  | _ => None
  end.

(* ===================================================================== *)
(** ** The response model and the outside world *)
(* ===================================================================== *)

(** [class PostOut(BaseModel)] *)
Record PostOut := {
  url : string;
  canonical_url : option string;
  title : option string;
  author : option string;
  publication : option string;
  published_at : option string;
  hero_image : option string;
  html : option string;
  text : option string;
  sha256 : option string;
  source : string
}.

(** [fastapi.HTTPException(status_code=..., detail=...)] *)
Record HTTPException := { status_code : Z; detail : string }.

Module httpx.

(** What [get_post] reads of an [httpx.Response]: [str(r.url)], the URL the
    client ended on after following redirects, the status and [r.text]. *)
Record Response := { url : string; status_code : Z; text : string }.

(** [r.is_success] *)
Definition is_success (r : Response) : bool :=
  (200 <=? status_code r) && (status_code r <=? 299).

End httpx.

(** The libraries and the network, as one request sees them. *)
Record World := {
  (** [client.get(url)] for the [n]-th GET of the request, redirects
      followed: the final response, or the transport's exception. *)
  client_get : nat -> string -> outcome exn httpx.Response;
  (** The exception [r.raise_for_status()] raises for a response that is
      not a success. *)
  HTTPStatusError : httpx.Response -> exn;
  (** [Post(url)] *)
  Post : string -> outcome exn unit;
  (** [p.get_metadata()] for the post at [url]. *)
  get_metadata : string -> outcome exn pyval;
  (** [p.get_content(as_html=...)] for the post at [url]. *)
  get_content : string -> bool -> outcome exn pyval;
  (** The [ValidationError] of pydantic for the fields it rejects, with the
      values given for them. *)
  ValidationError : list (string * pyval) -> exn;
  (** [BeautifulSoup(html, "html.parser")] *)
  BeautifulSoup : string -> outcome exn node;
  (** [urlparse(url).hostname], on the URL of a response. *)
  hostname : string -> option string
}.

(** The number of GETs already in the log. *)
Definition gets_so_far (log : list call) : nat :=
  length (List.filter (fun c => match c with ClientGet _ => true | _ => false end) log).

(** [hashlib.sha256(text.encode("utf-8")).hexdigest() if text else None],
    for a [text] that is a string or [None]. *)
Definition sha_of (text : option string) : option string :=
  match text with
  | Some t => if PyStr.truthy t then Some (sha256_hex t) else None
  | None => None
  end.

(** The body of an HTTP response of the route: the serialized model, or the
    detail of an [HTTPException]. *)
Inductive body : Type :=
| Model (p : PostOut)
| Detail (d : string).

(* ===================================================================== *)
(** ** [get_post] *)
(* ===================================================================== *)

Section Orchestrator.

Variable w : World.

(** [client.get(url)] *)
Definition get_ (url : string) : M exn httpx.Response :=
  perform (ClientGet url) (fun log => client_get w (gets_so_far log) url).

(** [r.raise_for_status()] *)
Definition raise_for_status (r : httpx.Response) : M exn unit :=
  if httpx.is_success r then mret tt else throw (HTTPStatusError w r).

(** Step 1, the body of the first [try]: follow the redirects. *)
Definition try_normalize (url : string) : M exn string :=
  head ← get_ url;
  mret (httpx.url head).

(** [PostOut(...)] on values of the library: pydantic checks the eight
    optional fields together and raises one [ValidationError] for those it
    rejects; [url], [sha256] and [source] are given values of their types. *)
Definition new_PostOut (url : string)
    (canonical_url title author publication published_at hero_image html text : pyval)
    (sha256 : option string) (source : string) : outcome exn PostOut :=
  let rejected :=
    List.filter (fun field => negb (is_optional_str (snd field)))
      [ ("canonical_url", canonical_url); ("title", title); ("author", author);
        ("publication", publication); ("published_at", published_at);
        ("hero_image", hero_image); ("html", html); ("text", text) ] in
  match rejected with
  | [] =>
      Ret {| url := url;
             canonical_url := as_optional_str canonical_url;
             title := as_optional_str title;
             author := as_optional_str author;
             publication := as_optional_str publication;
             published_at := as_optional_str published_at;
             hero_image := as_optional_str hero_image;
             html := as_optional_str html;
             text := as_optional_str text;
             sha256 := sha256;
             source := source |}
  | _ => Raise (ValidationError w rejected)
  end.

(** Lines 64 to 77, once the library has answered: the hash, the arguments
    of [PostOut(...)] in their order, and the construction. Each of them
    may raise, inside the [try] of line 59. *)
Definition structured_PostOut (final_url : string) (md html text : pyval)
  : outcome exn PostOut :=
  (* sha = hashlib.sha256(text.encode("utf-8")).hexdigest() if text else None *)
  sha ← (if truth text
         then data ← str_encode text; mret (Some (SHA256.hexdigest data))
         else mret None);
  (* canonical_url=md.get("canonical_url") or final_url *)
  canonical_url ← (c ← dict_get md "canonical_url"; mret (py_or c (PyStr final_url)));
  title ← dict_get md "title";
  author ← dict_get md "author";
  publication ← dict_get md "publication";
  published_at ← dict_get md "published_at";
  hero_image ← dict_get md "hero_image";
  new_PostOut final_url canonical_url title author publication published_at
              hero_image html text sha "substack_api".

(** Step 2, the body of the second [try]: the substack_api library, then
    the response built from its answers. *)
Definition try_substack_api (final_url : string) : M exn PostOut :=
  _ ← perform (PostInit final_url) (fun _ => Post w final_url);
  md ← perform (GetMetadata final_url) (fun _ => get_metadata w final_url);
  html ← perform (GetContent final_url true) (fun _ => get_content w final_url true);
  text ← perform (GetContent final_url false) (fun _ => get_content w final_url false);
  lift (structured_PostOut final_url md html text).

(** Step 3, the body of the inner [try]: generic fetch and readability. *)
Definition try_fallback (final_url : string) : M exn PostOut :=
  r ← get_ final_url;
  _ ← raise_for_status r;
  let html := httpx.text r in
  '(text, title_guess, hero) ← lift (_readability_extract (BeautifulSoup w) html);
  let sha := sha_of (Some text) in
  mret {| url := final_url;
          canonical_url := Some (httpx.url r);
          title := title_guess;
          author := None;
          publication := hostname w (httpx.url r);
          published_at := None;
          hero_image := hero;
          html := Some html;
          text := Some text;
          sha256 := sha;
          source := "generic-fetch" |}.

Definition get_post (url : string) : M HTTPException PostOut :=
  final_url ← try_except (try_normalize url) (fun e =>
    throw {| status_code := 502;
             detail := "URL normalize failed: " ++ str e |});
  try_except (try_substack_api final_url) (fun e =>
    try_except (try_fallback final_url) (fun e2 =>
      throw {| status_code := 502;
               detail := "substack_api failed: " ++ str e
                         ++ "; fallback fetch failed: " ++ str e2 |})).

(** What the client of [GET /post?url=...] receives: the status and the
    body, which is the model on a return (status 200) and the detail on an
    [HTTPException]. *)
Definition post_route (url : string) : Z * body :=
  match fst (get_post url []) with
  | Ret p => (200, Model p)
  | Raise h => (status_code h, Detail (detail h))
  end.

(** The calls the request made. *)
Definition calls (url : string) : list call := snd (get_post url []).

End Orchestrator.

(* ===================================================================== *)
(** ** A model of [BeautifulSoup(html, "html.parser")] *)
(* ===================================================================== *)

(** The tree that bs4 builds with Python's [html.parser] (two libraries,
    not code of this repository), on a fragment of HTML: text, start tags
    with quoted or valueless attributes, self-closing tags and matched end
    tags. Comments, declarations, character references, unquoted attribute
    values, raw-text elements and stray end tags are outside the fragment:
    for them [parse] answers [None], which says nothing about the
    libraries. The fixtures of this development are in the fragment. *)
Module HtmlParser.

Inductive token : Type :=
| Data (s : string)
| StartTag (name : string) (attrs : list (string * string))
| StartEndTag (name : string) (attrs : list (string * string))
| EndTag (name : string).

Definition code (c : ascii) : Z := Z.of_N (N_of_ascii c).

Definition is_upper (c : ascii) : bool := (65 <=? code c) && (code c <=? 90).
Definition is_lower (c : ascii) : bool := (97 <=? code c) && (code c <=? 122).
Definition is_digit (c : ascii) : bool := (48 <=? code c) && (code c <=? 57).
Definition is_alpha (c : ascii) : bool := is_upper c || is_lower c.

(** Tag and attribute names are lowercased. *)
Definition lower (c : ascii) : ascii :=
  if is_upper c then ascii_of_N (Z.to_N (code c + 32)) else c.

(** Characters of a name after the first: letters, digits, [-], [_], [:]. *)
Definition is_name_char (c : ascii) : bool :=
  is_alpha c || is_digit c || (code c =? 45) || (code c =? 95) || (code c =? 58).

(** Space, TAB, LF, FF and CR. *)
Definition is_ws (c : ascii) : bool :=
  (code c =? 32) || (code c =? 9) || (code c =? 10) || (code c =? 12) || (code c =? 13).

Definition is_lt (c : ascii) : bool := code c =? 60.
Definition is_gt (c : ascii) : bool := code c =? 62.
Definition is_slash (c : ascii) : bool := code c =? 47.
Definition is_amp (c : ascii) : bool := code c =? 38.
Definition is_eq (c : ascii) : bool := code c =? 61.
Definition is_quote (c : ascii) : bool := (code c =? 34) || (code c =? 39).

Definition one (c : ascii) : string := String c EmptyString.

(** The states of the scanner. Strings under construction are kept
    reversed. *)
Inductive state : Type :=
| InData (acc : string)
| AfterLt
| AfterLtSlash
| InName (closing : bool) (acc : string)
| EndWs (name : string)
| BeforeAttr (name : string) (attrs : list (string * string))
| InAttrName (name : string) (attrs : list (string * string)) (acc : string)
| AfterAttrName (name : string) (attrs : list (string * string)) (aname : string)
| BeforeValue (name : string) (attrs : list (string * string)) (aname : string)
| InValue (q : ascii) (name : string) (attrs : list (string * string))
          (aname : string) (acc : string)
| AfterValue (name : string) (attrs : list (string * string))
| Slash (name : string) (attrs : list (string * string)).

Definition flush (acc : string) (toks : list token) : list token :=
  match acc with
  | EmptyString => toks
  | _ => Data (PyStr.rev acc) :: toks
  end.

Definition snoc (attrs : list (string * string)) (k v : string) : list (string * string) :=
  (attrs ++ [(k, v)])%list.

(** One character: the next state and the tokens so far (reversed), or
    [None] outside the fragment. *)
Definition step (st : state) (toks : list token) (c : ascii)
  : option (state * list token) :=
  match st with
  | InData acc =>
      if is_lt c then Some (AfterLt, flush acc toks)
      else if is_amp c then None
      else Some (InData (String c acc), toks)
  | AfterLt =>
      if is_slash c then Some (AfterLtSlash, toks)
      else if is_alpha c then Some (InName false (one (lower c)), toks)
      else None
  | AfterLtSlash =>
      if is_alpha c then Some (InName true (one (lower c)), toks) else None
  | InName closing acc =>
      let name := PyStr.rev acc in
      if is_name_char c then Some (InName closing (String (lower c) acc), toks)
      else if is_ws c then
        Some (if closing then EndWs name else BeforeAttr name [], toks)
      else if is_gt c then
        Some (InData EmptyString,
              (if closing then EndTag name else StartTag name []) :: toks)
      else if is_slash c then
        (if closing then None else Some (Slash name [], toks))
      else None
  | EndWs name =>
      if is_ws c then Some (EndWs name, toks)
      else if is_gt c then Some (InData EmptyString, EndTag name :: toks)
      else None
  | BeforeAttr name attrs =>
      if is_ws c then Some (BeforeAttr name attrs, toks)
      else if is_gt c then Some (InData EmptyString, StartTag name attrs :: toks)
      else if is_slash c then Some (Slash name attrs, toks)
      else if is_name_char c then Some (InAttrName name attrs (one (lower c)), toks)
      else None
  | InAttrName name attrs acc =>
      let aname := PyStr.rev acc in
      if is_name_char c then Some (InAttrName name attrs (String (lower c) acc), toks)
      else if is_eq c then Some (BeforeValue name attrs aname, toks)
      else if is_ws c then Some (AfterAttrName name attrs aname, toks)
      else if is_gt c then
        Some (InData EmptyString, StartTag name (snoc attrs aname EmptyString) :: toks)
      else if is_slash c then Some (Slash name (snoc attrs aname EmptyString), toks)
      else None
  | AfterAttrName name attrs aname =>
      if is_ws c then Some (AfterAttrName name attrs aname, toks)
      else if is_eq c then Some (BeforeValue name attrs aname, toks)
      else if is_gt c then
        Some (InData EmptyString, StartTag name (snoc attrs aname EmptyString) :: toks)
      else if is_slash c then Some (Slash name (snoc attrs aname EmptyString), toks)
      else if is_name_char c then
        Some (InAttrName name (snoc attrs aname EmptyString) (one (lower c)), toks)
      else None
  | BeforeValue name attrs aname =>
      if is_ws c then Some (BeforeValue name attrs aname, toks)
      else if is_quote c then Some (InValue c name attrs aname EmptyString, toks)
      else None
  | InValue q name attrs aname acc =>
      if Ascii.eqb c q then Some (AfterValue name (snoc attrs aname (PyStr.rev acc)), toks)
      else if is_amp c then None
      else Some (InValue q name attrs aname (String c acc), toks)
  | AfterValue name attrs =>
      if is_ws c then Some (BeforeAttr name attrs, toks)
      else if is_gt c then Some (InData EmptyString, StartTag name attrs :: toks)
      else if is_slash c then Some (Slash name attrs, toks)
      else None
  | Slash name attrs =>
      if is_gt c then Some (InData EmptyString, StartEndTag name attrs :: toks)
      else None
  end.

Fixpoint scan (st : state) (toks : list token) (s : string) : option (list token) :=
  match s with
  | EmptyString =>
      match st with
      | InData acc => Some (List.rev (flush acc toks))
      | _ => None
      end
  | String c rest =>
      match step st toks c with
      | Some (st', toks') => scan st' toks' rest
      | None => None
      end
  end.

Definition tokens (html : string) : option (list token) :=
  scan (InData EmptyString) [] html.

(** Tags that never have contents. *)
Definition empty_element_tags : list string :=
  [ "area"; "base"; "br"; "col"; "embed"; "hr"; "img"; "input"; "keygen";
    "link"; "menuitem"; "meta"; "param"; "source"; "track"; "wbr";
    "basefont"; "bgsound"; "command"; "frame"; "image"; "isindex";
    "nextid"; "spacer" ].

(** Elements whose content the libraries scan or store differently. *)
Definition unsupported_tags : list string :=
  [ "script"; "style"; "template"; "rt"; "rp"; "textarea"; "pre";
    "plaintext"; "xmp"; "iframe"; "noembed"; "noframes"; "noscript" ].

Definition mem (x : string) (l : list string) : bool :=
  existsb (String.eqb x) l.

(** A string of ASCII spaces only becomes one newline if it has one, one
    space otherwise. *)
Fixpoint all_ws (s : string) : bool :=
  match s with
  | EmptyString => true
  | String c rest => is_ws c && all_ws rest
  end.

Fixpoint has_newline (s : string) : bool :=
  match s with
  | EmptyString => false
  | String c rest => (code c =? 10) || has_newline rest
  end.

Definition normalize_data (s : string) : string :=
  if all_ws s then (if has_newline s then PyStr.newline else " ") else s.

(** The attribute dictionary; of two values for a name the last one stays. *)
Definition attr_dict (attrs : list (string * string)) : gmap string string :=
  fold_left (fun m kv => <[fst kv := snd kv]> m) attrs ∅.

(** An open tag: its name, attributes and contents so far (reversed). *)
Record frame := Frame { fname : string; fattrs : gmap string string; fkids : list node }.

Definition close (f : frame) : node := Tag (fname f) (fattrs f) (List.rev (fkids f)).

(** Is a tag called [name] open, the document itself apart? *)
Fixpoint is_open (name : string) (stack : list frame) : bool :=
  match stack with
  | [] | [_] => false
  | f :: rest => String.eqb (fname f) name || is_open name rest
  end.

Definition adopt (parent : frame) (n : node) : frame :=
  Frame (fname parent) (fattrs parent) (n :: fkids parent).

(** Close the open tags down to and including the last one called [name];
    [top] is the innermost open tag and [below] the ones around it. The
    document itself is never closed. *)
Fixpoint pop_to (name : string) (top : frame) (below : list frame) : list frame :=
  match below with
  | [] => [top]
  | parent :: below' =>
      if String.eqb (fname top) name then adopt parent (close top) :: below'
      else pop_to name (adopt parent (close top)) below'
  end.

(** End of input: every open tag is closed. *)
Fixpoint close_all (top : frame) (below : list frame) : node :=
  match below with
  | [] => close top
  | parent :: below' => close_all (adopt parent (close top)) below'
  end.

(** The tree builder: one token at a time, on the stack of open tags. *)
Fixpoint build (toks : list token) (top : frame) (below : list frame) : option node :=
  match toks with
  | [] => Some (close_all top below)
  | Data s :: rest =>
      build rest (adopt top (Str NavigableString (normalize_data s))) below
  | StartTag name attrs :: rest =>
      if mem name unsupported_tags || String.eqb (fname top) "title" then None
      else if mem name empty_element_tags
      then build rest (adopt top (Tag name (attr_dict attrs) [])) below
      else build rest (Frame name (attr_dict attrs) []) (top :: below)
  | StartEndTag name attrs :: rest =>
      if mem name unsupported_tags || String.eqb (fname top) "title" then None
      else build rest (adopt top (Tag name (attr_dict attrs) [])) below
  | EndTag name :: rest =>
      if mem name empty_element_tags then None
      else if is_open name (top :: below)
      then match pop_to name top below with
           | top' :: below' => build rest top' below'
           | [] => None
           end
      else None
  end.

(** [BeautifulSoup(html, "html.parser")] on the fragment. *)
Definition parse (html : string) : option node :=
  match tokens html with
  | Some toks => build toks (Frame "[document]" ∅ []) []
  | None => None
  end.

End HtmlParser.

(* ===================================================================== *)
(** ** The vocabulary of the specification *)
(* ===================================================================== *)

(** The two values [get_post] writes to [source]; the specification calls
    them the structured and the generic source tag. *)
Inductive source_tag : Type := structured | generic.

Definition tag_value (t : source_tag) : string :=
  match t with
  | structured => "substack_api"
  | generic => "generic-fetch"
  end.

(** The structured capability on the canonical URL [u]: what the four
    calls to the substack_api library yield together, or the first
    exception one of them raises. *)
Definition substack_api (w : World) (u : string)
  : outcome exn (pyval * pyval * pyval) :=
  _ ← Post w u;
  md ← get_metadata w u;
  html ← get_content w u true;
  text ← get_content w u false;
  mret (md, html, text).

(** The Structured Extractor Adapter on the canonical URL [u], that is the
    body of the [try] of line 59 without its log: the answers of the
    capability, then the hash and the response built from them. It raises
    when the capability raises and when lines 64 to 77 do. *)
Definition structured_attempt (w : World) (u : string) : outcome exn PostOut :=
  '(md, html, text) ← substack_api w u;
  structured_PostOut w u md html text.

(** The answer of the capability has the types that [PostOut] declares for
    the fields it fills: the metadata is a dictionary whose six entries are
    strings or [None] where they are present, and so are the two contents. *)
Definition as_declared (md : gmap string pyval) (html text : pyval) : bool :=
  forallb (fun key => is_optional_str (default PyNone (md !! key)))
          [ "canonical_url"; "title"; "author"; "publication"; "published_at";
            "hero_image" ]
  && is_optional_str html && is_optional_str text.

(** The fallback stage on the canonical URL [u] fails with [e]: the fresh
    GET (the second of the request) raises, or its status is not 2xx, or the
    extraction raises on its body. *)
Inductive fallback_fails (w : World) (u : string) : exn -> Prop :=
| fetch_raises e :
    client_get w 1 u = Raise e ->
    fallback_fails w u e
| status_raises r :
    client_get w 1 u = Ret r ->
    httpx.is_success r = false ->
    fallback_fails w u (HTTPStatusError w r)
| extraction_raises r e :
    client_get w 1 u = Ret r ->
    httpx.is_success r = true ->
    _readability_extract (BeautifulSoup w) (httpx.text r) = Raise e ->
    fallback_fails w u e.

(** The content region in the specification's words: the first of an
    [<article>] element, else a [<main>] element, else the document body,
    else the whole document. *)
Definition content_region (soup : node) : node :=
  match find "article" soup with
  | Some a => a
  | None =>
      match find "main" soup with
      | Some m => m
      | None =>
          match find "body" soup with
          | Some b => b
          | None => soup
          end
      end
  end.

(** The hero image in the specification's words: the [src] of the first
    [<img>] in the content region; if there is none, of the first [<img>]
    anywhere in the document; else absent. An [<img>] without [src], or with
    an empty one, gives no hero image. *)
Definition hero_image_of (soup : node) : option string :=
  let img := match find "img" (content_region soup) with
             | Some i => Some i
             | None => find "img" soup
             end in
  match img with
  | Some i =>
      match get "src" i with
      | Some src => if PyStr.truthy src then Some src else None
      | None => None
      end
  | None => None
  end.

(** The title as line 40 computes it: the stripped string of the first
    [<title>] when that tag has a string and the string is not empty. *)
Definition title_of (soup : node) : option string :=
  match find "title" soup with
  | Some t =>
      match dot_string t with
      | Some s => if PyStr.truthy s then Some (PyStr.strip s) else None
      | None => None
      end
  | None => None
  end.

(* ===================================================================== *)
(** ** Fixtures *)
(* ===================================================================== *)

Module Fixtures.

(** The document of the specification's fifth testable property. *)
Definition article_html : string :=
  "<html><head><title> T </title></head><body><article><img src="
  ++ PyStr.dquote ++ "/h.png" ++ PyStr.dquote
  ++ "><p>Hello</p></article></body></html>".

(** A document with no [<article>], no [<main>] and no [<img>]. *)
Definition plain_html : string :=
  "<html><body><p>Hi</p><p> there </p></body></html>".

(** A document with nothing to extract. *)
Definition blank_html : string := "<html><body></body></html>".

(** The parser of the fixtures: the model of [html.parser] on its
    fragment. *)
Definition html_parser (html : string) : outcome exn node :=
  match HtmlParser.parse html with
  | Some soup => Ret soup
  | None => Raise (Exception "markup outside the modelled fragment")
  end.

Definition raw_url : string := "https://blog.example.com/hello".
Definition final_url : string := "https://www.example.com/p/hello".
Definition fetched_url : string := "https://www.example.com/p/hello?utm=1".

Definition hosts (u : string) : option string :=
  if String.eqb u final_url then Some "www.example.com"
  else if String.eqb u fetched_url then Some "www.example.com"
  else if String.eqb u raw_url then Some "blog.example.com"
  else None.

Definition ok (u body : string) : outcome exn httpx.Response :=
  Ret {| httpx.url := u; httpx.status_code := 200; httpx.text := body |}.

Definition status_error (r : httpx.Response) : exn :=
  Exception ("HTTP status error for url '" ++ httpx.url r ++ "'").

Definition validation_error (rejected : list (string * pyval)) : exn :=
  Exception ("validation errors for PostOut: " ++ PyStr.join ", " (map fst rejected)).

(** A world from the answers to the first GET, to the library and to the
    second GET. *)
Definition world
    (first : outcome exn httpx.Response)
    (library : outcome exn pyval)
    (content : bool -> outcome exn pyval)
    (second : outcome exn httpx.Response) : World :=
  {| client_get := fun n _ => match n with O => first | S _ => second end;
     HTTPStatusError := status_error;
     Post := fun _ => Ret tt;
     get_metadata := fun _ => library;
     get_content := fun _ as_html => content as_html;
     ValidationError := validation_error;
     BeautifulSoup := html_parser;
     hostname := hosts |}.

Definition post_content (as_html : bool) : outcome exn pyval :=
  if as_html then Ret (PyStr "<p>Hello from the library</p>")
  else Ret (PyStr "Hello from the library").

Definition full_metadata : gmap string pyval :=
  <["canonical_url" := PyStr "https://example.substack.com/p/hello"]>
    (<["title" := PyStr "Hello"]>
       (<["author" := PyStr "Ann"]> (<["published_at" := PyNone]> ∅))).

(** The provider names neither an author nor a canonical URL. *)
Definition bare_metadata : gmap string pyval :=
  <["title" := PyStr "Hello"]> ∅.

(** The provider gives the authors as a list. *)
Definition bylines_metadata : gmap string pyval :=
  <["title" := PyStr "Hello"]>
    (<["author" := PyList [PyStr "Ann"; PyStr "Bob"]]> ∅).

Definition unsupported : exn := Exception "Invalid Substack URL".
Definition refused : exn := Exception "[Errno 111] Connection refused".
Definition no_dns : exn := Exception "[Errno -2] Name or service not known".

(** The library knows the post. *)
Definition substack_world : World :=
  world (ok final_url "") (Ret (PyDict full_metadata)) post_content (Raise refused).

(** The library knows the post but not its author. *)
Definition bare_world : World :=
  world (ok final_url "") (Ret (PyDict bare_metadata)) post_content (Raise refused).

(** The library knows the post and gives its authors as a list; the page
    is served too. *)
Definition bylines_world : World :=
  world (ok final_url "") (Ret (PyDict bylines_metadata)) post_content
        (ok fetched_url article_html).

(** A custom domain: the library rejects the URL, the page is served. *)
Definition custom_domain_world : World :=
  world (ok final_url "") (Raise unsupported) post_content
        (ok fetched_url article_html).

(** The same with a page that has no text in it. *)
Definition blank_page_world : World :=
  world (ok final_url "") (Raise unsupported) post_content
        (ok fetched_url blank_html).

(** The library rejects the URL and the second GET is refused. *)
Definition broken_world : World :=
  world (ok final_url "") (Raise unsupported) post_content (Raise refused).

(** The library rejects the URL and the page is gone. *)
Definition gone_world : World :=
  world (ok final_url "") (Raise unsupported) post_content
        (Ret {| httpx.url := final_url; httpx.status_code := 404;
                httpx.text := "Not Found" |}).

(** The host of the URL does not resolve. *)
Definition unreachable_world : World :=
  world (Raise no_dns) (Ret (PyDict full_metadata)) post_content (Raise refused).


End Fixtures.

(** The two terminal successes of the orchestrator, read off the world:
    [resolves w raw p] when the first GET of [raw] ends on some response and
    either the structured attempt on its URL returns [p], or that attempt
    raises and the second GET is a 2xx response whose body the parser turns
    into a tree. *)
Inductive resolves (w : World) (raw : string) : PostOut -> Prop :=
| resolves_structured head p :
    client_get w 0 raw = Ret head ->
    structured_attempt w (httpx.url head) = Ret p ->
    resolves w raw p
| resolves_generic head e r soup :
    client_get w 0 raw = Ret head ->
    structured_attempt w (httpx.url head) = Raise e ->
    client_get w 1 (httpx.url head) = Ret r ->
    httpx.is_success r = true ->
    BeautifulSoup w (httpx.text r) = Ret soup ->
    resolves w raw
      {| url := httpx.url head;
         canonical_url := Some (httpx.url r);
         title := title_of soup;
         author := None;
         publication := hostname w (httpx.url r);
         published_at := None;
         hero_image := hero_image_of soup;
         html := Some (httpx.text r);
         text := Some (get_text PyStr.newline (content_region soup));
         sha256 := sha_of (Some (get_text PyStr.newline (content_region soup)));
         source := tag_value generic |}.

(** The log of a request whose structured attempt returns: one GET, then the four
    calls to the library, and nothing else. *)
Definition structured_calls (raw final_url : string) : list call :=
  [ ClientGet raw; PostInit final_url; GetMetadata final_url;
    GetContent final_url true; GetContent final_url false ].

(** Is the call a GET? *)
Definition is_get (c : call) : bool :=
  match c with ClientGet _ => true | _ => false end.

(** The statement of C1 as the specification has it: the [source] of a
    response is the string [structured] or the string [generic]. *)
Definition source_is_structured_or_generic : Prop :=
  forall (w : World) (raw : string) (p : PostOut),
    post_route w raw = (200, Model p) ->
    source p = "structured" \/ source p = "generic".


(* ===================================================================== *)
(** ** The other routes: [root] and [healthz] *)
(* ===================================================================== *)

(** The JSON values the two routes return. *)
#[warnings="-register-all"]
Inductive json : Type :=
| JBool (b : bool)
| JString (s : string)
| JArray (items : list json)
| JObject (members : list (string * json)).

(** What a route function returns: a redirect, with its status and its
    [Location] header, or a value that the framework serializes. *)
Inductive reply : Type :=
| Redirect (status_code : Z) (location : string)
| Returned (value : json).

(** Characters that [urllib.parse.quote] never escapes: the ASCII letters
    and digits and [_.-~]. *)
Definition always_safe (c : ascii) : bool :=
  let n := Z.of_N (N_of_ascii c) in
  ((65 <=? n) && (n <=? 90)) || ((97 <=? n) && (n <=? 122))
  || ((48 <=? n) && (n <=? 57))
  || (n =? 95) || (n =? 46) || (n =? 45) || (n =? 126).

(** The characters of [safe=":/%#?=@[]!$&'()*+,;"]. *)
Definition redirect_safe (c : ascii) : bool :=
  let n := Z.of_N (N_of_ascii c) in
  (n =? 58) || (n =? 47) || (n =? 37) || (n =? 35) || (n =? 63) || (n =? 61)
  || (n =? 64) || (n =? 91) || (n =? 93) || (n =? 33) || (n =? 36) || (n =? 38)
  || (n =? 39) || (n =? 40) || (n =? 41) || (n =? 42) || (n =? 43) || (n =? 44)
  || (n =? 59).

Definition is_safe (c : ascii) : bool := always_safe c || redirect_safe c.

(** A digit of uppercase hexadecimal. *)
Definition upper_hex_digit (n : Z) : ascii :=
  if n <? 10 then ascii_of_N (Z.to_N (48 + n)) else ascii_of_N (Z.to_N (55 + n)).

(** One byte, quoted: itself when safe, [%XX] otherwise. *)
Definition quote_byte (c : ascii) : string :=
  if is_safe c then String c EmptyString
  else let n := Z.of_N (N_of_ascii c) in
       String "%"%char
         (String (upper_hex_digit (Z.shiftr n 4))
            (String (upper_hex_digit (Z.land n 15)) EmptyString)).

(** [quote(url, safe=":/%#?=@[]!$&'()*+,;")], byte by byte on the UTF-8
    encoding. *)
Fixpoint quote (url : string) : string :=
  match url with
  | EmptyString => EmptyString
  | String c rest => quote_byte c ++ quote rest
  end.

(** [RedirectResponse(url=...)] of starlette: status 307, and the URL
    quoted into the [Location] header. *)
Definition RedirectResponse (url : string) : reply := Redirect 307 (quote url).

(** [def root(request)]; [query_params_get] is
    [request.query_params.get]. *)
Definition root (query_params_get : string -> option string) : reply :=
  let q := query_params_get "url" in
  match q with
  | Some q' =>
      if PyStr.truthy q'
      then RedirectResponse ("/post?url=" ++ q')
      else Returned (JObject [("ok", JBool true);
                              ("routes", JArray [JString "/"; JString "/healthz";
                                                 JString "/post"])])
  | None =>
      Returned (JObject [("ok", JBool true);
                         ("routes", JArray [JString "/"; JString "/healthz";
                                            JString "/post"])])
  end.

(** [def healthz()] *)
Definition healthz : reply := Returned (JObject [("ok", JBool true)]).




(* ===================================================================== *)
(** ** Further vocabulary *)
(* ===================================================================== *)

(** The four calls to the library for the post at [u], in the order of
    lines 60 to 63. *)
Definition library_calls (u : string) : list call :=
  [ PostInit u; GetMetadata u; GetContent u true; GetContent u false ].

(** The world [w] with another answer to the first GET of the request. *)
Definition with_first_response (w : World) (first : outcome exn httpx.Response)
  : World :=
  {| client_get := fun n u => match n with O => first | S _ => client_get w n u end;
     HTTPStatusError := HTTPStatusError w;
     Post := Post w;
     get_metadata := get_metadata w;
     get_content := get_content w;
     ValidationError := ValidationError w;
     BeautifulSoup := BeautifulSoup w;
     hostname := hostname w |}.

(** [s.startswith(p)] *)
Definition startswith (s p : string) : Prop := exists rest, s = p ++ rest.

(** A digit of lowercase hexadecimal. *)
Definition is_lower_hex (c : ascii) : bool :=
  let n := Z.of_N (N_of_ascii c) in
  ((48 <=? n) && (n <=? 57)) || ((97 <=? n) && (n <=? 102)).

(** Every character of [s] satisfies [f]. *)
Fixpoint all_chars (f : ascii -> bool) (s : string) : bool :=
  match s with
  | EmptyString => true
  | String c rest => f c && all_chars f rest
  end.

(** A page whose title is blank. *)
Definition blank_title_html : string :=
  "<html><head><title>   </title></head><body><p>Body</p></body></html>".

(** A world with a redirect on the way and an error page at the end of it:
    the first GET ends on a 404. *)
Definition not_found_first_world : World :=
  with_first_response Fixtures.substack_world
    (Ret {| httpx.url := Fixtures.final_url; httpx.status_code := 404;
            httpx.text := "Not Found" |}).

(** The tree [n] holds the string [s], of class [k], in itself or below. *)
Inductive holds_string : node -> string_kind -> string -> Prop :=
| holds_here k s : holds_string (Str k s) k s
| holds_below nm a cs c k s :
    In c cs -> holds_string c k s -> holds_string (Tag nm a cs) k s.

(** The URL a call is about. *)
Definition call_url (c : call) : string :=
  match c with
  | ClientGet u | PostInit u | GetMetadata u | GetContent u _ => u
  end.

(* ===================================================================== *)
(* ===================================================================== *)
(** ** How the code runs *)
(* ===================================================================== *)

Ltac run_outcome :=
  unfold getattr, or_else, mbind, outcome_bind, mret, outcome_ret; simpl.

Ltac case_scrutinee :=
  match goal with
  | |- context [match ?x with _ => _ end] =>
      lazymatch x with
      | context [match _ with _ => _ end] => fail
      | _ => destruct x eqn:?; simpl
      end
  end.

Lemma readability_run (bs : string -> outcome exn node) (html : string) :
  _readability_extract bs html =
  match bs html with
  | Ret soup => Ret (get_text PyStr.newline (content_region soup), title_of soup, hero_image_of soup)
  | Raise e => Raise e
  end.
Proof.
  unfold _readability_extract, hero_image_of, title_of, content_region.
  run_outcome.
  destruct (bs html) as [soup|e]; simpl; [|reflexivity].
  repeat case_scrutinee; try reflexivity; simpl in *; congruence.

Qed.

Ltac run_M :=
  unfold try_except, perform, throw, lift, mbind, M_bind, outcome_bind,
         mret, M_ret, outcome_ret; simpl.

Lemma gets_so_far_app (l l' : list call) :
  gets_so_far (l ++ l') = (gets_so_far l + gets_so_far l')%nat.
Proof.
  unfold gets_so_far. rewrite List.filter_app, length_app. reflexivity.
Qed.

(** The outcome of the library step is that of the structured attempt. *)
Lemma try_substack_api_fst (w : World) (f : string) (log : list call) :
  fst (try_substack_api w f log) = structured_attempt w f.
Proof.
  unfold structured_attempt, substack_api, try_substack_api. run_M.
  destruct (Post w f); [|reflexivity].
  destruct (get_metadata w f); [|reflexivity].
  destruct (get_content w f true); [|reflexivity].
  destruct (get_content w f false); [|reflexivity].
  simpl. destruct (structured_PostOut w f a0 a1 a2); reflexivity.
Qed.

(** The log of the library step: the calls up to the one that raised, all
    four when none did. *)
Lemma try_substack_api_log (w : World) (f : string) (log : list call) :
  exists k,
    (1 <= k <= 4)%nat
    /\ snd (try_substack_api w f log) = (log ++ firstn k (library_calls f))%list
    /\ (forall p, fst (try_substack_api w f log) = Ret p -> k = 4%nat).
Proof.
  unfold try_substack_api, library_calls. run_M.
  destruct (Post w f).
  2:{ exists 1%nat. repeat split; try lia. discriminate. }
  destruct (get_metadata w f).
  2:{ exists 2%nat. rewrite <- !app_assoc. repeat split; try lia. discriminate. }
  destruct (get_content w f true).
  2:{ exists 3%nat. rewrite <- !app_assoc. repeat split; try lia. discriminate. }
  destruct (get_content w f false).
  - exists 4%nat. rewrite <- !app_assoc.
    destruct (structured_PostOut w f a0 a1 a2); repeat split; lia.
  - exists 4%nat. rewrite <- !app_assoc. repeat split; try lia.
Qed.

Lemma try_substack_api_ret (w : World) (f : string) (log : list call) (p : PostOut) :
  structured_attempt w f = Ret p ->
  try_substack_api w f log = (Ret p, (log ++ library_calls f)%list).
Proof.
  intros Hp.
  destruct (try_substack_api_log w f log) as (k & _ & Hlog & Hk).
  pose proof (try_substack_api_fst w f log) as Hfst. rewrite Hp in Hfst.
  rewrite (Hk p Hfst) in Hlog.
  destruct (try_substack_api w f log) as [o l]. simpl in *. subst. reflexivity.
Qed.

Lemma try_substack_api_raise (w : World) (f : string) (log : list call) e :
  structured_attempt w f = Raise e ->
  exists log', try_substack_api w f log = (Raise e, log')
               /\ gets_so_far log' = gets_so_far log.
Proof.
  intros He.
  destruct (try_substack_api_log w f log) as (k & Hk & Hlog & _).
  pose proof (try_substack_api_fst w f log) as Hfst. rewrite He in Hfst.
  destruct (try_substack_api w f log) as [o l]. simpl in *. subst.
  eexists. split; [reflexivity|].
  rewrite gets_so_far_app.
  assert (k = 1 \/ k = 2 \/ k = 3 \/ k = 4)%nat as Hcases by lia.
  destruct Hcases as [-> | [-> | [-> | ->]]]; cbn; lia.
Qed.

(** When the capability raises, so does the attempt, with the same
    exception. *)
Lemma structured_attempt_capability_raises (w : World) (f : string) (e : exn) :
  substack_api w f = Raise e -> structured_attempt w f = Raise e.
Proof. unfold structured_attempt. intros ->. reflexivity. Qed.

Lemma try_fallback_run (w : World) (f : string) (log : list call) :
  try_fallback w f log =
    (match client_get w (gets_so_far log) f with
     | Raise e => Raise e
     | Ret r =>
         if httpx.is_success r
         then match _readability_extract (BeautifulSoup w) (httpx.text r) with
              | Ret (text, title_guess, hero) =>
                  Ret {| url := f;
                         canonical_url := Some (httpx.url r);
                         title := title_guess;
                         author := None;
                         publication := hostname w (httpx.url r);
                         published_at := None;
                         hero_image := hero;
                         html := Some (httpx.text r);
                         text := Some text;
                         sha256 := sha_of (Some text);
                         source := "generic-fetch" |}
              | Raise e => Raise e
              end
         else Raise (HTTPStatusError w r)
     end, (log ++ [ClientGet f])%list).
Proof.
  unfold try_fallback, get_, raise_for_status. run_M.
  destruct (client_get w (gets_so_far log) f) as [r|e]; [|reflexivity].
  destruct (httpx.is_success r); run_M; [|reflexivity].
  destruct (_readability_extract (BeautifulSoup w) (httpx.text r)) as [[[t ti] he]|e];
    reflexivity.
Qed.

Lemma get_post_run (w : World) (raw : string) :
  get_post w raw [] =
    match client_get w 0 raw with
    | Raise e =>
        (Raise {| status_code := 502; detail := "URL normalize failed: " ++ str e |},
         [ClientGet raw])
    | Ret head =>
        match try_substack_api w (httpx.url head) [ClientGet raw] with
        | (Ret p, log) => (Ret p, log)
        | (Raise e, log) =>
            match try_fallback w (httpx.url head) log with
            | (Ret p, log') => (Ret p, log')
            | (Raise e2, log') =>
                (Raise {| status_code := 502;
                          detail := "substack_api failed: " ++ str e
                                    ++ "; fallback fetch failed: " ++ str e2 |}, log')
            end
        end
    end.
Proof.
  unfold get_post, try_normalize, get_. run_M.
  change (gets_so_far []) with O.
  destruct (client_get w 0 raw) as [head|e]; reflexivity.
Qed.

Lemma append_assoc (s1 s2 s3 : string) : (s1 ++ s2) ++ s3 = s1 ++ s2 ++ s3.
Proof.
  induction s1 as [|c s1 IH]; [reflexivity|].
  change (String c ((s1 ++ s2) ++ s3) = String c (s1 ++ s2 ++ s3)).
  now rewrite IH.
Qed.

Lemma append_empty_r (s : string) : s ++ "" = s.
Proof.
  induction s as [|c s IH]; [reflexivity|].
  change (String c (s ++ "") = String c s). now rewrite IH.
Qed.

Lemma contains_middle (a needle b : string) : PyStr.contains (a ++ needle ++ b) needle.
Proof. exists a, b. reflexivity. Qed.

Lemma contains_end (a needle : string) : PyStr.contains (a ++ needle) needle.
Proof. exists a, "". now rewrite append_empty_r. Qed.

(** The structured attempt returns: the request returns its response after
    exactly the five calls of [structured_calls]. *)
Lemma get_post_structured (w : World) (raw : string) head (p : PostOut) :
  client_get w 0 raw = Ret head ->
  structured_attempt w (httpx.url head) = Ret p ->
  get_post w raw [] = (Ret p, structured_calls raw (httpx.url head)).
Proof.
  intros Hget Hp. rewrite get_post_run, Hget.
  rewrite (try_substack_api_ret _ _ _ _ Hp). reflexivity.
Qed.

(** What a response of the structured attempt is made of: the metadata is
    a dictionary, every value given to an optional field is a string or
    [None], and the hash is that of the text. *)
Lemma structured_PostOut_Ret (w : World) (f : string) (md html text : pyval)
    (p : PostOut) :
  structured_PostOut w f md html text = Ret p ->
  exists items,
    md = PyDict items
    /\ is_optional_str (py_or (default PyNone (items !! "canonical_url")) (PyStr f)) = true
    /\ is_optional_str html = true
    /\ is_optional_str text = true
    /\ p = {| url := f;
              canonical_url :=
                as_optional_str (py_or (default PyNone (items !! "canonical_url"))
                                       (PyStr f));
              title := as_optional_str (default PyNone (items !! "title"));
              author := as_optional_str (default PyNone (items !! "author"));
              publication := as_optional_str (default PyNone (items !! "publication"));
              published_at := as_optional_str (default PyNone (items !! "published_at"));
              hero_image := as_optional_str (default PyNone (items !! "hero_image"));
              html := as_optional_str html;
              text := as_optional_str text;
              sha256 := sha_of (as_optional_str text);
              source := "substack_api" |}.
Proof.
  unfold structured_PostOut. run_outcome.
  destruct (truth text) eqn:Htruth.
  - destruct text as [| | |s| |]; simpl; try discriminate.
    destruct md as [| | | | |items]; simpl; try discriminate.
    unfold new_PostOut. simpl.
    destruct (is_optional_str (py_or (default PyNone (items !! "canonical_url")) (PyStr f)))
      eqn:Hc; simpl;
      destruct (is_optional_str (default PyNone (items !! "title"))); simpl;
      destruct (is_optional_str (default PyNone (items !! "author"))); simpl;
      destruct (is_optional_str (default PyNone (items !! "publication"))); simpl;
      destruct (is_optional_str (default PyNone (items !! "published_at"))); simpl;
      destruct (is_optional_str (default PyNone (items !! "hero_image"))); simpl;
      destruct (is_optional_str html) eqn:Hh; simpl; try discriminate.
    intros [= <-]. exists items. simpl in Htruth. rewrite Htruth.
    repeat split; try reflexivity; assumption.
  - destruct md as [| | | | |items]; simpl; try discriminate.
    unfold new_PostOut. simpl.
    destruct (is_optional_str (py_or (default PyNone (items !! "canonical_url")) (PyStr f)))
      eqn:Hc; simpl;
      destruct (is_optional_str (default PyNone (items !! "title"))); simpl;
      destruct (is_optional_str (default PyNone (items !! "author"))); simpl;
      destruct (is_optional_str (default PyNone (items !! "publication"))); simpl;
      destruct (is_optional_str (default PyNone (items !! "published_at"))); simpl;
      destruct (is_optional_str (default PyNone (items !! "hero_image"))); simpl;
      destruct (is_optional_str html) eqn:Hh; simpl;
      destruct (is_optional_str text) eqn:Ht; simpl; try discriminate.
    intros [= <-]. exists items. repeat split; try reflexivity; try assumption.
    destruct text as [| | |s| |]; try discriminate; simpl; [reflexivity|].
    simpl in Htruth. rewrite Htruth. reflexivity.
Qed.

(** An answer of the declared types makes a response. *)
Lemma structured_PostOut_as_declared (w : World) (f : string)
    (items : gmap string pyval) (html text : pyval) :
  as_declared items html text = true ->
  structured_PostOut w f (PyDict items) html text
  = Ret {| url := f;
           canonical_url :=
             as_optional_str (py_or (default PyNone (items !! "canonical_url"))
                                    (PyStr f));
           title := as_optional_str (default PyNone (items !! "title"));
           author := as_optional_str (default PyNone (items !! "author"));
           publication := as_optional_str (default PyNone (items !! "publication"));
           published_at := as_optional_str (default PyNone (items !! "published_at"));
           hero_image := as_optional_str (default PyNone (items !! "hero_image"));
           html := as_optional_str html;
           text := as_optional_str text;
           sha256 := sha_of (as_optional_str text);
           source := "substack_api" |}.
Proof.
  unfold as_declared. simpl. rewrite !andb_true_iff.
  intros [[(Hc & Ht & Ha & Hp & Hd & Hh & _) Hhtml] Htext].
  unfold structured_PostOut. run_outcome.
  assert (Hsha : (if truth text
                  then match str_encode text with
                       | Ret data => Ret (Some (SHA256.hexdigest data))
                       | Raise e => Raise e
                       end
                  else Ret None)
                 = (Ret (sha_of (as_optional_str text)) : outcome exn (option string))).
  { destruct text as [| | |s| |]; try discriminate; simpl; [reflexivity|].
    destruct (PyStr.truthy s); reflexivity. }
  rewrite Hsha. simpl. unfold new_PostOut. simpl.
  assert (Hor : is_optional_str (py_or (default PyNone (items !! "canonical_url"))
                                       (PyStr f)) = true).
  { unfold py_or.
    destruct (truth (default PyNone (items !! "canonical_url")));
      [exact Hc | reflexivity]. }
  rewrite Hor, Ht, Ha, Hp, Hd, Hh, Hhtml, Htext. reflexivity.
Qed.

(** The structured attempt raises: the request is decided by the second
    GET. *)
Lemma get_post_fallback (w : World) (raw : string) head e :
  client_get w 0 raw = Ret head ->
  structured_attempt w (httpx.url head) = Raise e ->
  fst (get_post w raw []) =
    match client_get w 1 (httpx.url head) with
    | Raise e2 =>
        Raise {| status_code := 502;
                 detail := "substack_api failed: " ++ str e
                           ++ "; fallback fetch failed: " ++ str e2 |}
    | Ret r =>
        if httpx.is_success r
        then match _readability_extract (BeautifulSoup w) (httpx.text r) with
             | Ret (text, title_guess, hero) =>
                 Ret {| url := httpx.url head;
                        canonical_url := Some (httpx.url r);
                        title := title_guess;
                        author := None;
                        publication := hostname w (httpx.url r);
                        published_at := None;
                        hero_image := hero;
                        html := Some (httpx.text r);
                        text := Some text;
                        sha256 := sha_of (Some text);
                        source := "generic-fetch" |}
             | Raise e2 =>
                 Raise {| status_code := 502;
                          detail := "substack_api failed: " ++ str e
                                    ++ "; fallback fetch failed: " ++ str e2 |}
             end
        else Raise {| status_code := 502;
                      detail := "substack_api failed: " ++ str e
                                ++ "; fallback fetch failed: "
                                ++ str (HTTPStatusError w r) |}
    end.
Proof.
  intros Hget Hlib. rewrite get_post_run, Hget.
  destruct (try_substack_api_raise w (httpx.url head) [ClientGet raw] e Hlib)
    as (log & -> & Hgets).
  rewrite try_fallback_run, Hgets. change (gets_so_far [ClientGet raw]) with 1%nat.
  destruct (client_get w 1 (httpx.url head)) as [r|e2]; [|reflexivity].
  destruct (httpx.is_success r); [|reflexivity].
  destruct (_readability_extract (BeautifulSoup w) (httpx.text r)) as [[[tx ti] he]|e2];
    reflexivity.
Qed.

Lemma get_post_generic (w : World) (raw : string) head e r soup :
  client_get w 0 raw = Ret head ->
  structured_attempt w (httpx.url head) = Raise e ->
  client_get w 1 (httpx.url head) = Ret r ->
  httpx.is_success r = true ->
  BeautifulSoup w (httpx.text r) = Ret soup ->
  fst (get_post w raw []) =
    Ret {| url := httpx.url head;
           canonical_url := Some (httpx.url r);
           title := title_of soup;
           author := None;
           publication := hostname w (httpx.url r);
           published_at := None;
           hero_image := hero_image_of soup;
           html := Some (httpx.text r);
           text := Some (get_text PyStr.newline (content_region soup));
           sha256 := sha_of (Some (get_text PyStr.newline (content_region soup)));
           source := "generic-fetch" |}.
Proof.
  intros Hget Hlib Hget2 Hok Hsoup.
  rewrite (get_post_fallback _ _ _ _ Hget Hlib), Hget2, Hok, readability_run, Hsoup.
  reflexivity.
Qed.

Lemma get_post_both_fail (w : World) (raw : string) head e e2 :
  client_get w 0 raw = Ret head ->
  structured_attempt w (httpx.url head) = Raise e ->
  fallback_fails w (httpx.url head) e2 ->
  fst (get_post w raw []) =
    Raise {| status_code := 502;
             detail := "substack_api failed: " ++ str e
                       ++ "; fallback fetch failed: " ++ str e2 |}.
Proof.
  intros Hget Hlib Hfail. rewrite (get_post_fallback _ _ _ _ Hget Hlib).
  destruct Hfail as [e2 H2 | r H2 Hok | r e2 H2 Hok Hex]; rewrite H2; [reflexivity| |].
  - rewrite Hok. reflexivity.
  - rewrite Hok, Hex. reflexivity.
Qed.

(** The three cases of [fallback_fails] are the only ways for the request to
    fail once the structured attempt has raised. *)
Lemma fallback_fails_complete (w : World) (raw : string) head e h :
  client_get w 0 raw = Ret head ->
  structured_attempt w (httpx.url head) = Raise e ->
  fst (get_post w raw []) = Raise h ->
  exists e2,
    fallback_fails w (httpx.url head) e2
    /\ detail h = "substack_api failed: " ++ str e
                  ++ "; fallback fetch failed: " ++ str e2.
Proof.
  intros Hget Hlib. rewrite (get_post_fallback _ _ _ _ Hget Hlib).
  destruct (client_get w 1 (httpx.url head)) as [r|e2] eqn:Hget2.
  - destruct (httpx.is_success r) eqn:Hok.
    + destruct (_readability_extract (BeautifulSoup w) (httpx.text r))
        as [[[tx ti] he]|e2] eqn:Hex; [discriminate|].
      intros [= <-]. exists e2. split; [|reflexivity].
      now apply (extraction_raises w _ r e2).
    + intros [= <-]. exists (HTTPStatusError w r). split; [|reflexivity].
      now apply status_raises.
  - intros [= <-]. exists e2. split; [|reflexivity]. now apply fetch_raises.
Qed.

Lemma post_route_ok (w : World) (raw : string) (p : PostOut) :
  post_route w raw = (200, Model p) <-> fst (get_post w raw []) = Ret p.
Proof.
  unfold post_route. split.
  - destruct (fst (get_post w raw [])); [intros [= ->]; reflexivity | discriminate].
  - intros ->. reflexivity.
Qed.

(** The code returns a model exactly in the two cases of [resolves]. *)
Lemma post_route_resolves (w : World) (raw : string) (p : PostOut) :
  post_route w raw = (200, Model p) <-> resolves w raw p.
Proof.
  rewrite post_route_ok. split.
  - intros Hp.
    destruct (client_get w 0 raw) as [head|e0] eqn:Hget.
    2:{ rewrite get_post_run, Hget in Hp. discriminate. }
    destruct (structured_attempt w (httpx.url head)) as [q|e] eqn:Hlib.
    { rewrite (get_post_structured _ _ _ _ Hget Hlib) in Hp.
      injection Hp as <-. now apply (resolves_structured _ _ head). }
    rewrite (get_post_fallback _ _ _ _ Hget Hlib) in Hp.
    destruct (client_get w 1 (httpx.url head)) as [r|e2] eqn:Hget2; [|discriminate].
    destruct (httpx.is_success r) eqn:Hok; [|discriminate].
    rewrite readability_run in Hp.
    destruct (BeautifulSoup w (httpx.text r)) as [soup|e2] eqn:Hsoup; [|discriminate].
    injection Hp as <-. now apply (resolves_generic _ _ head e r soup).
  - intros [head q Hget Hlib | head e r soup Hget Hlib Hget2 Hok Hsoup].
    + now rewrite (get_post_structured _ _ _ _ Hget Hlib).
    + now apply (get_post_generic _ _ head e r soup).
Qed.

(** A response of the structured attempt, field by field. *)
Lemma structured_attempt_Ret (w : World) (f : string) (p : PostOut) :
  structured_attempt w f = Ret p ->
  exists items h t,
    substack_api w f = Ret (PyDict items, h, t)
    /\ structured_PostOut w f (PyDict items) h t = Ret p
    /\ url p = f
    /\ source p = "substack_api"
    /\ text p = as_optional_str t
    /\ sha256 p = sha_of (text p)
    /\ author p = as_optional_str (default PyNone (items !! "author"))
    /\ canonical_url p
       = as_optional_str (py_or (default PyNone (items !! "canonical_url")) (PyStr f))
    /\ is_optional_str (py_or (default PyNone (items !! "canonical_url")) (PyStr f))
       = true.
Proof.
  unfold structured_attempt.
  destruct (substack_api w f) as [[[md h] t]|e]; [|discriminate].
  intros Hp. change (structured_PostOut w f md h t = Ret p) in Hp.
  destruct (structured_PostOut_Ret _ _ _ _ _ _ Hp)
    as (items & -> & Hc & Hh & Ht & Hrec).
  exists items, h, t. split; [reflexivity|]. split; [exact Hp|].
  rewrite Hrec. simpl. repeat split; try reflexivity; assumption.
Qed.

(* ===================================================================== *)
(** ** The source field *)
(* ===================================================================== *)

(** C1, counterexample. The response of [Fixtures.substack_world] has the
    source [substack_api], which is neither the string [structured] nor the
    string [generic]. *)
Lemma source_is_neither_structured_nor_generic :
  (exists p,
     post_route Fixtures.substack_world Fixtures.raw_url = (200, Model p)
     /\ source p = "substack_api"
     /\ source p <> "structured"
     /\ source p <> "generic")
  /\ ~ source_is_structured_or_generic.
Proof.
  split.
  - eexists. split; [vm_compute; reflexivity|]. simpl.
    split; [reflexivity|]. split; discriminate.
  - intros Hall.
    destruct (Hall Fixtures.substack_world Fixtures.raw_url _
                ltac:(vm_compute; reflexivity)) as [H | H]; discriminate.
Qed.

(** C1, amended. Every response that [GET /post] returns has its [source]
    field equal to one of the two strings [substack_api] and
    [generic-fetch]. It is [substack_api] exactly when the structured
    attempt (the library calls, the hash and the construction of the
    response, lines 60 to 77) returns, and then the response is the one it
    returns; it is [generic-fetch] exactly when that attempt raises, the
    response then coming from the generic fallback. *)
Theorem source_is_one_of_the_two_tags (w : World) (raw : string) (p : PostOut) :
  post_route w raw = (200, Model p) ->
  (source p = "substack_api" \/ source p = "generic-fetch")
  /\ exists head,
       client_get w 0 raw = Ret head
       /\ (source p = "substack_api"
           <-> structured_attempt w (httpx.url head) = Ret p)
       /\ (source p = "generic-fetch"
           <-> exists e, structured_attempt w (httpx.url head) = Raise e).
Proof.
  intros Hp. apply post_route_resolves in Hp.
  destruct Hp as [head q Hget Hq | head e r soup Hget Hlib Hget2 Hok Hsoup].
  - destruct (structured_attempt_Ret _ _ _ Hq) as (items & h & t & _ & _ & _ & Hs & _).
    split; [left; exact Hs|]. exists head. split; [exact Hget|]. split; split.
    + intros _. exact Hq.
    + intros _. exact Hs.
    + rewrite Hs. discriminate.
    + intros [e He]. rewrite Hq in He. discriminate.
  - simpl. split; [right; reflexivity|]. exists head. split; [exact Hget|].
    split; split.
    + discriminate.
    + rewrite Hlib. discriminate.
    + eauto.
    + reflexivity.
Qed.

Lemma source_is_one_of_the_two_tags_witness :
  exists p, post_route Fixtures.custom_domain_world Fixtures.raw_url = (200, Model p)
            /\ (source p = "substack_api" \/ source p = "generic-fetch").
Proof.
  eexists. split; [vm_compute; reflexivity|].
  apply (source_is_one_of_the_two_tags Fixtures.custom_domain_world Fixtures.raw_url).
  vm_compute. reflexivity.
Defined.

(* ===================================================================== *)
(** ** Failures *)
(* ===================================================================== *)

(** C2. When the structured path raises and the fallback fetch or the
    extraction fails as well, [GET /post] answers 502 with a detail string
    in which both the message of the structured-stage exception and the
    message of the fallback-stage exception occur; the body is that detail,
    never a model. *)
Theorem both_stages_fail_gives_502 (w : World) (raw : string) head e e2 :
  client_get w 0 raw = Ret head ->
  structured_attempt w (httpx.url head) = Raise e ->
  fallback_fails w (httpx.url head) e2 ->
  exists d,
    post_route w raw = (502, Detail d)
    /\ d = "substack_api failed: " ++ str e ++ "; fallback fetch failed: " ++ str e2
    /\ PyStr.contains d (str e)
    /\ PyStr.contains d (str e2)
    /\ (forall status p, post_route w raw <> (status, Model p)).
Proof.
  intros Hget Hlib Hfail.
  pose proof (get_post_both_fail _ _ _ _ _ Hget Hlib Hfail) as Hrun.
  eexists. unfold post_route. rewrite Hrun. simpl.
  split; [reflexivity|]. split; [reflexivity|]. split; [|split].
  - apply contains_middle.
  - rewrite <- !append_assoc. apply contains_end.
  - discriminate.
Qed.

Lemma both_stages_fail_gives_502_witness :
  exists d,
    post_route Fixtures.gone_world Fixtures.raw_url = (502, Detail d)
    /\ PyStr.contains d (str Fixtures.unsupported).
Proof.
  destruct (both_stages_fail_gives_502 Fixtures.gone_world Fixtures.raw_url
              {| httpx.url := Fixtures.final_url; httpx.status_code := 200;
                 httpx.text := "" |}
              Fixtures.unsupported
              (Fixtures.status_error
                 {| httpx.url := Fixtures.final_url; httpx.status_code := 404;
                    httpx.text := "Not Found" |}))
    as (d & Hd & _ & He & _).
  - reflexivity.
  - reflexivity.
  - apply (status_raises Fixtures.gone_world _
             {| httpx.url := Fixtures.final_url; httpx.status_code := 404;
                httpx.text := "Not Found" |}); reflexivity.
  - exists d. split; assumption.
Defined.

(** C4. When the canonicalization GET raises, [GET /post] answers 502 at
    once, with the message of that exception in the detail; the only call
    the request makes is that GET: neither the library nor the fallback
    fetch is attempted. *)
Theorem normalize_failure_is_fatal (w : World) (raw : string) (e : exn) :
  client_get w 0 raw = Raise e ->
  post_route w raw = (502, Detail ("URL normalize failed: " ++ str e))
  /\ PyStr.contains ("URL normalize failed: " ++ str e) (str e)
  /\ calls w raw = [ClientGet raw].
Proof.
  intros Hget. unfold post_route, calls. rewrite get_post_run, Hget. simpl.
  split; [reflexivity|]. split; [apply contains_end | reflexivity].
Qed.

Lemma normalize_failure_is_fatal_witness :
  post_route Fixtures.unreachable_world Fixtures.raw_url
    = (502, Detail ("URL normalize failed: " ++ str Fixtures.no_dns))
  /\ calls Fixtures.unreachable_world Fixtures.raw_url = [ClientGet Fixtures.raw_url].
Proof.
  destruct (normalize_failure_is_fatal Fixtures.unreachable_world Fixtures.raw_url
              Fixtures.no_dns) as (H1 & _ & H2).
  - reflexivity.
  - split; assumption.
Defined.

(* ===================================================================== *)
(** ** The two successes *)
(* ===================================================================== *)

(** C3. When the Structured Extractor Adapter raises and the fallback GET of
    the canonical URL returns a 2xx response whose body the parser turns
    into a tree, the response has no author and no publication date, its
    publication is the host name of the URL the fallback GET ended on, its
    canonical URL is that URL, and its source is the generic tag. *)
Theorem generic_fallback_fields (w : World) (raw : string) head e r soup :
  client_get w 0 raw = Ret head ->
  structured_attempt w (httpx.url head) = Raise e ->
  client_get w 1 (httpx.url head) = Ret r ->
  httpx.is_success r = true ->
  BeautifulSoup w (httpx.text r) = Ret soup ->
  exists p,
    post_route w raw = (200, Model p)
    /\ author p = None
    /\ published_at p = None
    /\ publication p = hostname w (httpx.url r)
    /\ canonical_url p = Some (httpx.url r)
    /\ source p = tag_value generic.
Proof.
  intros Hget Hlib Hget2 Hok Hsoup.
  eexists. split.
  - apply post_route_ok. apply (get_post_generic _ _ head e r soup); assumption.
  - simpl. repeat split.
Qed.

Lemma generic_fallback_fields_witness :
  exists p,
    post_route Fixtures.custom_domain_world Fixtures.raw_url = (200, Model p)
    /\ author p = None
    /\ published_at p = None
    /\ publication p = Some "www.example.com"
    /\ canonical_url p = Some Fixtures.fetched_url
    /\ source p = tag_value generic.
Proof.
  destruct (HtmlParser.parse Fixtures.article_html) as [soup|] eqn:Hsoup;
    [|vm_compute in Hsoup; discriminate].
  destruct (generic_fallback_fields Fixtures.custom_domain_world Fixtures.raw_url
              {| httpx.url := Fixtures.final_url; httpx.status_code := 200;
                 httpx.text := "" |}
              Fixtures.unsupported
              {| httpx.url := Fixtures.fetched_url; httpx.status_code := 200;
                 httpx.text := Fixtures.article_html |}
              soup)
    as (p & Hp & Ha & Hd & Hpub & Hc & Hs).
  - reflexivity.
  - reflexivity.
  - reflexivity.
  - reflexivity.
  - simpl. unfold Fixtures.html_parser. rewrite Hsoup. reflexivity.
  - exists p. repeat split; assumption.
Defined.




(** C9. On structured-path success the canonical URL of the response is the
    one the provider supplies (a non-empty [canonical_url] entry of the
    metadata), and the redirect-resolved URL when the provider supplies
    none (no entry, a null one or an empty one, or any other value that
    counts as false). An answer of the declared types is such a success. *)
Theorem structured_canonical_url
    (w : World) (raw : string) head (md : gmap string pyval) (h t : pyval) :
  client_get w 0 raw = Ret head ->
  substack_api w (httpx.url head) = Ret (PyDict md, h, t) ->
  (as_declared md h t = true -> exists p, post_route w raw = (200, Model p))
  /\ (forall p,
        post_route w raw = (200, Model p) ->
        source p = "substack_api" ->
        (forall c, md !! "canonical_url" = Some (PyStr c) -> c <> "" ->
                   canonical_url p = Some c)
        /\ (md !! "canonical_url" = None -> canonical_url p = Some (httpx.url head))
        /\ (md !! "canonical_url" = Some PyNone ->
            canonical_url p = Some (httpx.url head))
        /\ (md !! "canonical_url" = Some (PyStr "") ->
            canonical_url p = Some (httpx.url head))
        /\ (forall v, md !! "canonical_url" = Some v -> truth v = false ->
                      canonical_url p = Some (httpx.url head))).
Proof.
  intros Hget Hlib. split.
  - intros Htyped.
    assert (Hattempt : structured_attempt w (httpx.url head)
                       = structured_PostOut w (httpx.url head) (PyDict md) h t).
    { unfold structured_attempt. rewrite Hlib. reflexivity. }
    rewrite (structured_PostOut_as_declared _ _ _ _ _ Htyped) in Hattempt.
    eexists. apply post_route_ok.
    rewrite (get_post_structured _ _ _ _ Hget Hattempt). reflexivity.
  - intros p Hp Hsource. apply post_route_resolves in Hp.
    destruct Hp as [head' q Hget' Hq | head' e r soup Hget' _ _ _ _];
      [|discriminate].
    rewrite Hget in Hget'. injection Hget' as <-.
    destruct (structured_attempt_Ret _ _ _ Hq)
      as (items & h' & t' & Hlib' & _ & _ & _ & _ & _ & _ & Hc & _).
    rewrite Hlib in Hlib'. injection Hlib' as <- <- <-.
    rewrite Hc. unfold py_or. repeat split.
    + intros c -> Hne. simpl. destruct c; [contradiction | reflexivity].
    + intros ->. reflexivity.
    + intros ->. reflexivity.
    + intros ->. reflexivity.
    + intros v -> Hv. simpl. rewrite Hv. reflexivity.
Qed.

Lemma structured_canonical_url_witness :
  (exists p,
     post_route Fixtures.substack_world Fixtures.raw_url = (200, Model p)
     /\ canonical_url p = Some "https://example.substack.com/p/hello")
  /\ (exists p,
        post_route Fixtures.bare_world Fixtures.raw_url = (200, Model p)
        /\ canonical_url p = Some Fixtures.final_url).
Proof.
  split.
  - destruct (structured_canonical_url Fixtures.substack_world Fixtures.raw_url
                {| httpx.url := Fixtures.final_url; httpx.status_code := 200;
                   httpx.text := "" |}
                Fixtures.full_metadata (PyStr "<p>Hello from the library</p>")
                (PyStr "Hello from the library") eq_refl eq_refl)
      as (Hex & Hall).
    destruct (Hex ltac:(vm_compute; reflexivity)) as (p & Hp).
    exists p. split; [assumption|].
    destruct (Hall p Hp) as (Hsome & _).
    + vm_compute in Hp. injection Hp as <-. reflexivity.
    + apply Hsome; [vm_compute; reflexivity | discriminate].
  - destruct (structured_canonical_url Fixtures.bare_world Fixtures.raw_url
                {| httpx.url := Fixtures.final_url; httpx.status_code := 200;
                   httpx.text := "" |}
                Fixtures.bare_metadata (PyStr "<p>Hello from the library</p>")
                (PyStr "Hello from the library") eq_refl eq_refl)
      as (Hex & Hall).
    destruct (Hex ltac:(vm_compute; reflexivity)) as (p & Hp).
    exists p. split; [assumption|].
    destruct (Hall p Hp) as (_ & Hnone & _).
    + vm_compute in Hp. injection Hp as <-. reflexivity.
    + apply Hnone. vm_compute. reflexivity.
Defined.

(** C10. In every successful response, from the structured path or from the
    generic fallback, [url] is the URL the canonicalization GET ended on
    after redirects: it is not the caller's URL whenever the two differ. *)
Theorem url_is_the_resolved_url (w : World) (raw : string) (p : PostOut) :
  post_route w raw = (200, Model p) ->
  exists head,
    client_get w 0 raw = Ret head
    /\ url p = httpx.url head
    /\ (httpx.url head <> raw -> url p <> raw).
Proof.
  intros Hp. apply post_route_resolves in Hp.
  destruct Hp as [head q Hget Hq | head e r soup Hget Hlib Hget2 Hok Hsoup];
    exists head.
  - destruct (structured_attempt_Ret _ _ _ Hq) as (items & h & t & _ & _ & Hurl & _).
    rewrite Hurl. auto.
  - simpl. auto.
Qed.

Lemma url_is_the_resolved_url_witness :
  exists p,
    post_route Fixtures.custom_domain_world Fixtures.raw_url = (200, Model p)
    /\ url p = Fixtures.final_url
    /\ url p <> Fixtures.raw_url.
Proof.
  eexists. split; [vm_compute; reflexivity|].
  destruct (url_is_the_resolved_url Fixtures.custom_domain_world Fixtures.raw_url _
              ltac:(vm_compute; reflexivity)) as (head & Hget & Hurl & Hne).
  vm_compute in Hget. injection Hget as <-.
  split; [exact Hurl | apply Hne; discriminate].
Defined.

(* ===================================================================== *)
(** ** The heuristic extractor *)
(* ===================================================================== *)

(** Induction on trees, with the hypothesis for every child of a tag. *)
Lemma node_tree_ind (P : node -> Prop) :
  (forall k s, P (Str k s)) ->
  (forall nm a cs, Forall P cs -> P (Tag nm a cs)) ->
  forall n, P n.
Proof.
  intros Hstr Htag. fix IH 1. intros [k s|nm a cs].
  - apply Hstr.
  - apply Htag. induction cs as [|c cs IHcs]; constructor; [apply IH | exact IHcs].
Qed.

Lemma first_some_None {A B} (f : A -> option B) (l : list A) :
  first_some f l = None -> Forall (fun a => f a = None) l.
Proof.
  induction l as [|a l IH]; simpl; intros H; constructor.
  - destruct (f a); [discriminate | reflexivity].
  - apply IH. destruct (f a); [discriminate | exact H].
Qed.

Lemma first_some_Some {A B} (f : A -> option B) (l : list A) (b : B) :
  first_some f l = Some b -> exists a, In a l /\ f a = Some b.
Proof.
  induction l as [|a l IH]; simpl; [discriminate|].
  destruct (f a) as [b'|] eqn:Hfa.
  - intros [= <-]. exists a. auto.
  - intros H. destruct (IH H) as (a' & Hin & Ha'). exists a'. auto.
Qed.

(** A tree without a tag called [name] has none below any of its tags. *)
Lemma find_from_None_inside (name other : string) (n b : node) :
  find_from name n = None ->
  find_from other n = Some b ->
  find_from name b = None.
Proof.
  revert b. induction n as [k s|nm a cs IH] using node_tree_ind; intros b Hnone Hb.
  - discriminate.
  - simpl in Hb. destruct (String.eqb nm other).
    + injection Hb as <-. exact Hnone.
    + simpl in Hnone. destruct (String.eqb nm name); [discriminate|].
      apply first_some_Some in Hb as (c & Hin & Hc).
      apply first_some_None in Hnone.
      rewrite List.Forall_forall in IH, Hnone.
      apply (IH c Hin b); [apply Hnone, Hin | exact Hc].
Qed.

Lemma find_from_None_find (name : string) (b : node) :
  find_from name b = None -> find name b = None.
Proof.
  destruct b as [k s|nm a cs]; simpl; [reflexivity|].
  destruct (String.eqb nm name); [discriminate | auto].
Qed.

Lemma find_None_inside (name other : string) (soup b : node) :
  find name soup = None ->
  find other soup = Some b ->
  find name b = None.
Proof.
  destruct soup as [k s|nm a cs]; simpl; [discriminate|].
  intros Hnone Hb. apply find_from_None_find.
  apply first_some_Some in Hb as (c & Hin & Hc).
  apply first_some_None in Hnone. rewrite List.Forall_forall in Hnone.
  apply (find_from_None_inside name other c b); [apply Hnone, Hin | exact Hc].
Qed.

(** C6. On every tree the parser builds, the extractor returns the text of
    the content region and the hero image, where the content region is the
    first of an [<article>], else a [<main>], else the body, else the whole
    document, and the hero image is the [src] of the first [<img>] in the
    content region, else of the first [<img>] anywhere in the document,
    else absent. On the document of the specification it yields the title
    [T], the hero image [/h.png] and the text [Hello]. *)
Theorem readability_fallback_chain
    (BeautifulSoup : string -> outcome exn node) (html : string) (soup : node) :
  BeautifulSoup html = Ret soup ->
  (exists title,
     _readability_extract BeautifulSoup html
     = Ret (get_text PyStr.newline (content_region soup), title, hero_image_of soup))
  /\ (exists text,
        _readability_extract Fixtures.html_parser Fixtures.article_html
        = Ret (text, Some "T", Some "/h.png")
        /\ PyStr.contains text "Hello").
Proof.
  intros Hsoup. split.
  - exists (title_of soup). rewrite readability_run, Hsoup. reflexivity.
  - exists "Hello". split; [vm_compute; reflexivity|].
    exists "", "". reflexivity.
Qed.

Lemma readability_fallback_chain_witness :
  exists soup,
    Fixtures.html_parser Fixtures.article_html = Ret soup
    /\ exists title,
        _readability_extract Fixtures.html_parser Fixtures.article_html
        = Ret (get_text PyStr.newline (content_region soup), title, hero_image_of soup).
Proof.
  destruct (Fixtures.html_parser Fixtures.article_html) as [soup|e] eqn:Hsoup;
    [|vm_compute in Hsoup; discriminate].
  exists soup. split; [reflexivity|].
  destruct (readability_fallback_chain Fixtures.html_parser Fixtures.article_html
              soup Hsoup) as [Hchain _].
  exact Hchain.
Defined.

(** C7. On every input that the parser turns into a tree the extractor
    returns: it raises nothing, and its text is a string. When the tree has
    no [<article>], no [<main>] and no [<img>] anywhere, the text is that of
    the body, or of the whole document when there is no body, and the hero
    image is null. *)
Theorem readability_never_raises
    (BeautifulSoup : string -> outcome exn node) (html : string) (soup : node) :
  BeautifulSoup html = Ret soup ->
  (exists (text : string) title hero,
     _readability_extract BeautifulSoup html = Ret (text, title, hero))
  /\ (find "article" soup = None ->
      find "main" soup = None ->
      find "img" soup = None ->
      exists title,
        _readability_extract BeautifulSoup html
        = Ret (get_text PyStr.newline
                 (match find "body" soup with Some b => b | None => soup end),
               title, None)).
Proof.
  intros Hsoup. rewrite readability_run, Hsoup. split.
  - eauto.
  - intros Harticle Hmain Himg. exists (title_of soup).
    unfold hero_image_of, content_region. rewrite Harticle, Hmain.
    destruct (find "body" soup) as [b|] eqn:Hbody.
    + rewrite (find_None_inside "img" "body" soup b Himg Hbody), Himg. reflexivity.
    + rewrite Himg. reflexivity.
Qed.

Lemma readability_never_raises_witness :
  exists title,
    _readability_extract Fixtures.html_parser Fixtures.plain_html
    = Ret ("Hi" ++ PyStr.newline ++ "there", title, None).
Proof.
  destruct (Fixtures.html_parser Fixtures.plain_html) as [soup|e] eqn:Hsoup;
    [|vm_compute in Hsoup; discriminate].
  destruct (readability_never_raises Fixtures.html_parser Fixtures.plain_html
              soup Hsoup) as [_ Hplain].
  vm_compute in Hsoup. injection Hsoup as <-.
  destruct Hplain as (title & Hrun); [reflexivity..|].
  exists title. rewrite Hrun. reflexivity.
Defined.

(* ===================================================================== *)
(** ** The content hash *)
(* ===================================================================== *)

(** The constants are those of FIPS 180-4. *)
Example sha256_constants :
  length SHA256.K = 64%nat
  /\ nth 0 SHA256.K 0 = 0x428a2f98
  /\ nth 63 SHA256.K 0 = 0xc67178f2
  /\ length SHA256.H0 = 8%nat
  /\ nth 0 SHA256.H0 0 = 0x6a09e667
  /\ nth 7 SHA256.H0 0 = 0x5be0cd19.
Proof. vm_compute. repeat split. Qed.

(** The digest is SHA-256: the test vectors of FIPS 180-4. *)
Example sha256_abc :
  sha256_hex "abc"
  = "ba7816bf8f01cfea414140de5dae2223b00361a396177a9cb410ff61f20015ad".
Proof. vm_compute. reflexivity. Qed.

Example sha256_empty :
  sha256_hex ""
  = "e3b0c44298fc1c149afbf4c8996fb92427ae41e4649b934ca495991b7852b855".
Proof. vm_compute. reflexivity. Qed.

Example sha256_two_blocks :
  sha256_hex "abcdbcdecdefdefgefghfghighijhijkijkljklmklmnlmnomnopnopq"
  = "248d6a61d20638b8e5c026930c3e6039a33ce45964ff2167f6ecedd419db06c1".
Proof. vm_compute. reflexivity. Qed.



(* ===================================================================== *)
(** ** The fixtures, run *)
(* ===================================================================== *)

(** A page without text: the response carries the empty text and no hash. *)
Example blank_page_has_no_hash :
  exists p,
    post_route Fixtures.blank_page_world Fixtures.raw_url = (200, Model p)
    /\ text p = Some ""
    /\ sha256 p = None
    /\ source p = "generic-fetch".
Proof. eexists. split; [vm_compute; reflexivity|]. repeat split. Qed.

(** The library rejects the URL and the second GET is refused. *)
Example refused_fallback_is_502 :
  post_route Fixtures.broken_world Fixtures.raw_url
  = (502, Detail ("substack_api failed: Invalid Substack URL; "
                  ++ "fallback fetch failed: [Errno 111] Connection refused"))
  /\ List.filter is_get (calls Fixtures.broken_world Fixtures.raw_url)
     = [ClientGet Fixtures.raw_url; ClientGet Fixtures.final_url].
Proof. split; vm_compute; reflexivity. Qed.

(** The library answers: one GET, and the text of the library hashed. *)
Example library_answer_is_returned :
  exists p,
    post_route Fixtures.substack_world Fixtures.raw_url = (200, Model p)
    /\ source p = "substack_api"
    /\ text p = Some "Hello from the library"
    /\ sha256 p = Some (sha256_hex "Hello from the library")
    /\ publication p = None.
Proof. eexists. split; [vm_compute; reflexivity|]. repeat split. Qed.

(* ===================================================================== *)
(** ** The calls of a request *)
(* ===================================================================== *)

(** The shape of the log of every request. *)
Lemma calls_shape (w : World) (raw : string) :
  match client_get w 0 raw with
  | Raise _ => calls w raw = [ClientGet raw]
  | Ret head =>
      match structured_attempt w (httpx.url head) with
      | Ret _ => calls w raw = (ClientGet raw :: library_calls (httpx.url head))%list
      | Raise _ =>
          exists k, (1 <= k <= 4)%nat
            /\ calls w raw
               = (ClientGet raw :: firstn k (library_calls (httpx.url head))
                    ++ [ClientGet (httpx.url head)])%list
      end
  end.
Proof.
  unfold calls. rewrite get_post_run.
  destruct (client_get w 0 raw) as [head|e0]; [|reflexivity].
  destruct (structured_attempt w (httpx.url head)) as [p|e] eqn:Hlib.
  - rewrite (try_substack_api_ret _ _ _ _ Hlib). reflexivity.
  - destruct (try_substack_api_log w (httpx.url head) [ClientGet raw])
      as (k & Hk & Hlog & _).
    destruct (try_substack_api_raise w (httpx.url head) [ClientGet raw] e Hlib)
      as (log' & Hrun & _).
    rewrite Hrun in Hlog |- *. simpl in Hlog. subst log'.
    rewrite try_fallback_run. exists k. split; [exact Hk|].
    destruct (client_get w _ (httpx.url head)) as [r|e2].
    + destruct (httpx.is_success r).
      * destruct (_readability_extract _ _) as [[[tx ti] he]|e2]; reflexivity.
      * reflexivity.
    + reflexivity.
Qed.

(** X1. A request makes no retry: its log starts with the GET of the
    caller's URL, holds at most two GETs, and between them the calls to the
    library in the order of the source, each at most once; every call after
    the first is about the URL the first GET ended on. *)
Theorem request_makes_no_retry (w : World) (raw : string) :
  hd_error (calls w raw) = Some (ClientGet raw)
  /\ (length (List.filter is_get (calls w raw)) <= 2)%nat
  /\ (exists u k, (k <= 4)%nat
        /\ List.filter (fun c => negb (is_get c)) (calls w raw)
           = firstn k (library_calls u))
  /\ (forall head, client_get w 0 raw = Ret head ->
        Forall (fun c => call_url c = httpx.url head) (tl (calls w raw))).
Proof.
  pose proof (calls_shape w raw) as Hshape.
  destruct (client_get w 0 raw) as [head|e0].
  - destruct (structured_attempt w (httpx.url head)) as [a|e].
    + rewrite Hshape. split; [reflexivity|]. split; [simpl; lia|]. split.
      * exists (httpx.url head), 4%nat. split; [lia | reflexivity].
      * intros head' [= <-]. simpl. repeat constructor.
    + destruct Hshape as (k & Hk & ->). split; [reflexivity|].
      assert (k = 1 \/ k = 2 \/ k = 3 \/ k = 4)%nat as Hcases by lia.
      split; [|split].
      * destruct Hcases as [-> | [-> | [-> | ->]]]; simpl; lia.
      * exists (httpx.url head), k. split; [lia|].
        destruct Hcases as [-> | [-> | [-> | ->]]]; reflexivity.
      * intros head' [= <-].
        destruct Hcases as [-> | [-> | [-> | ->]]]; simpl; repeat constructor.
  - rewrite Hshape. split; [reflexivity|]. split; [simpl; lia|]. split.
    + exists raw, 0%nat. split; [lia | reflexivity].
    + discriminate.
Qed.

(** X2. Once the first GET has answered, the request makes a second GET
    exactly when the structured attempt raises, whatever the exception:
    when the library raises, and also when the library answers and the hash
    or the construction of the response raises. When the attempt returns,
    the first GET is the only one. *)
Theorem second_get_iff_structured_attempt_raises (w : World) (raw : string) head :
  client_get w 0 raw = Ret head ->
  (List.filter is_get (calls w raw) = [ClientGet raw; ClientGet (httpx.url head)]
   <-> exists e, structured_attempt w (httpx.url head) = Raise e)
  /\ (List.filter is_get (calls w raw) = [ClientGet raw]
      <-> exists p, structured_attempt w (httpx.url head) = Ret p)
  /\ (forall e, substack_api w (httpx.url head) = Raise e ->
        List.filter is_get (calls w raw)
        = [ClientGet raw; ClientGet (httpx.url head)])
  /\ (forall md h t,
        substack_api w (httpx.url head) = Ret (md, h, t) ->
        structured_PostOut w (httpx.url head) md h t
        = structured_attempt w (httpx.url head)).
Proof.
  intros Hget. pose proof (calls_shape w raw) as Hshape. rewrite Hget in Hshape.
  assert (Hraise : (exists e, structured_attempt w (httpx.url head) = Raise e) ->
                   List.filter is_get (calls w raw)
                   = [ClientGet raw; ClientGet (httpx.url head)]).
  { intros [e He]. rewrite He in Hshape. destruct Hshape as (k & Hk & ->).
    assert (k = 1 \/ k = 2 \/ k = 3 \/ k = 4)%nat as Hcases by lia.
    destruct Hcases as [-> | [-> | [-> | ->]]]; reflexivity. }
  split; [|split; [|split]].
  - split; [|exact Hraise].
    destruct (structured_attempt w (httpx.url head)) as [p|e]; [|eauto].
    rewrite Hshape. discriminate.
  - destruct (structured_attempt w (httpx.url head)) as [p|e] eqn:Hp.
    + rewrite Hshape. split; [eauto | reflexivity].
    + rewrite (Hraise (ex_intro _ e eq_refl)). split; [discriminate|].
      intros [p Hp']. discriminate.
  - intros e He. apply Hraise. exists e.
    now apply structured_attempt_capability_raises.
  - intros md h t Hlib. unfold structured_attempt. rewrite Hlib. reflexivity.
Qed.

Lemma second_get_iff_structured_attempt_raises_witness :
  List.filter is_get (calls Fixtures.bylines_world Fixtures.raw_url)
  = [ClientGet Fixtures.raw_url; ClientGet Fixtures.final_url].
Proof.
  apply (second_get_iff_structured_attempt_raises Fixtures.bylines_world
           Fixtures.raw_url
           {| httpx.url := Fixtures.final_url; httpx.status_code := 200;
              httpx.text := "" |} eq_refl).
  eexists. vm_compute. reflexivity.
Defined.

(* ===================================================================== *)
(** ** The answers of the route *)
(* ===================================================================== *)



Lemma startswith_append (p rest : string) : startswith (p ++ rest) p.
Proof. exists rest. reflexivity. Qed.

(** X4. The detail of a 502 names the stage that failed: it starts with
    [URL normalize failed: ] exactly when the first GET raised, and with
    [substack_api failed: ] exactly when the first GET answered, in which
    case the structured attempt raised (the library, or the hash or the
    construction of the response after it) and the fallback failed. *)
Theorem detail_names_the_failed_stage (w : World) (raw d : string) :
  post_route w raw = (502, Detail d) ->
  (startswith d "URL normalize failed: "
   <-> exists e, client_get w 0 raw = Raise e)
  /\ (startswith d "substack_api failed: "
      <-> exists head e e2,
            client_get w 0 raw = Ret head
            /\ structured_attempt w (httpx.url head) = Raise e
            /\ fallback_fails w (httpx.url head) e2
            /\ d = "substack_api failed: " ++ str e
                   ++ "; fallback fetch failed: " ++ str e2).
Proof.
  unfold post_route.
  destruct (fst (get_post w raw [])) as [p|h] eqn:Hrun; [discriminate|].
  intros [= _ <-].
  destruct (client_get w 0 raw) as [head|e0] eqn:Hget.
  - destruct (structured_attempt w (httpx.url head)) as [q|e] eqn:Hlib.
    { rewrite (get_post_structured _ _ _ _ Hget Hlib) in Hrun. discriminate. }
    destruct (fallback_fails_complete _ _ _ _ _ Hget Hlib Hrun) as (e2 & Hfail & ->).
    split; split.
    + intros [rest Hrest]. cbv in Hrest. discriminate.
    + intros [e' He']. discriminate.
    + intros _. exists head, e, e2. auto.
    + intros _. apply startswith_append.
  - rewrite get_post_run, Hget in Hrun. injection Hrun as <-. simpl.
    split; split.
    + eauto.
    + intros _. apply startswith_append.
    + intros [rest Hrest]. cbv in Hrest. discriminate.
    + intros (head & e & e2 & Hhead & _). discriminate.
Qed.

Lemma detail_names_the_failed_stage_witness :
  startswith ("URL normalize failed: " ++ str Fixtures.no_dns) "URL normalize failed: "
  <-> exists e, client_get Fixtures.unreachable_world 0 Fixtures.raw_url = Raise e.
Proof.
  apply (detail_names_the_failed_stage Fixtures.unreachable_world Fixtures.raw_url).
  reflexivity.
Defined.

(* ===================================================================== *)
(** ** What the first response contributes *)
(* ===================================================================== *)

(** X5. Of the response to the first GET only the URL is used: its status
    is not checked and its body is not read. A world whose first GET ends
    on the same URL with any other status and body gives the same answer and
    the same calls. *)
Theorem first_response_status_and_body_are_ignored
    (w : World) (raw : string) (head head' : httpx.Response) :
  client_get w 0 raw = Ret head ->
  httpx.url head' = httpx.url head ->
  post_route (with_first_response w (Ret head')) raw = post_route w raw
  /\ calls (with_first_response w (Ret head')) raw = calls w raw.
Proof.
  intros Hget Hurl.
  assert (Hsame : get_post (with_first_response w (Ret head')) raw []
                  = get_post w raw []).
  { rewrite !get_post_run, Hget. simpl. rewrite Hurl.
    change (try_substack_api (with_first_response w (Ret head')) (httpx.url head)
              [ClientGet raw])
      with (try_substack_api w (httpx.url head) [ClientGet raw]).
    destruct (structured_attempt w (httpx.url head)) as [q|e] eqn:Hlib.
    - rewrite (try_substack_api_ret _ _ _ _ Hlib). reflexivity.
    - destruct (try_substack_api_raise w (httpx.url head) [ClientGet raw] e Hlib)
        as (log & -> & Hgets).
      rewrite !try_fallback_run, Hgets.
      change (gets_so_far [ClientGet raw]) with 1%nat. reflexivity. }
  unfold post_route, calls. rewrite Hsame. split; reflexivity.
Qed.

Lemma first_response_status_and_body_are_ignored_witness :
  post_route not_found_first_world Fixtures.raw_url
  = post_route Fixtures.substack_world Fixtures.raw_url.
Proof.
  apply (first_response_status_and_body_are_ignored Fixtures.substack_world
           Fixtures.raw_url
           {| httpx.url := Fixtures.final_url; httpx.status_code := 200;
              httpx.text := "" |}
           {| httpx.url := Fixtures.final_url; httpx.status_code := 404;
              httpx.text := "Not Found" |});
    reflexivity.
Defined.

(* ===================================================================== *)
(** ** The fields of a model *)
(* ===================================================================== *)

Lemma be_bytes_length (n : nat) (x : Z) : length (SHA256.be_bytes n x) = n.
Proof.
  revert x. induction n as [|n IH]; intros x; simpl; [reflexivity|].
  rewrite length_app, IH. simpl. lia.
Qed.

Lemma be_bytes_range (n : nat) (x : Z) :
  Forall (fun b => 0 <= b < 256) (SHA256.be_bytes n x).
Proof.
  revert x. induction n as [|n IH]; intros x; simpl; [constructor|].
  apply Forall_app. split; [apply IH|]. constructor; [|constructor].
  change 0xff with (Z.ones 8). rewrite Z.land_ones by lia.
  apply Z.mod_pos_bound. lia.
Qed.

Lemma digest_words_length (msg : list Z) : length (SHA256.digest_words msg) = 8%nat.
Proof.
  unfold SHA256.digest_words.
  generalize (SHA256.blocks (length (SHA256.words (SHA256.pad msg)))
                (SHA256.words (SHA256.pad msg))).
  assert (H0 : length SHA256.H0 = 8%nat) by reflexivity.
  revert H0. generalize SHA256.H0.
  intros acc Hacc bl. revert acc Hacc.
  induction bl as [|b bl IH]; intros acc Hacc; simpl; [exact Hacc|].
  apply IH. reflexivity.
Qed.

Lemma hex_digit_is_lower_hex (n : Z) :
  0 <= n < 16 -> is_lower_hex (SHA256.hex_digit n) = true.
Proof.
  intros Hn.
  assert (Hall : forallb (fun k => is_lower_hex (SHA256.hex_digit (Z.of_nat k)))
                         (seq 0 16) = true) by reflexivity.
  rewrite forallb_forall in Hall.
  specialize (Hall (Z.to_nat n)). rewrite Z2Nat.id in Hall by lia.
  apply Hall, in_seq. lia.
Qed.

Lemma hex_of_bytes_shape (bs : list Z) :
  Forall (fun b => 0 <= b < 256) bs ->
  String.length (SHA256.hex_of_bytes bs) = (2 * length bs)%nat
  /\ all_chars is_lower_hex (SHA256.hex_of_bytes bs) = true.
Proof.
  induction 1 as [|b bs Hb Hbs [IHlen IHhex]]; [split; reflexivity|].
  split.
  - simpl. rewrite IHlen. lia.
  - change (is_lower_hex (SHA256.hex_digit (Z.shiftr b 4))
            && (is_lower_hex (SHA256.hex_digit (Z.land b 15))
                && all_chars is_lower_hex (SHA256.hex_of_bytes bs)) = true).
    rewrite IHhex, !hex_digit_is_lower_hex; [reflexivity| |].
    + change 15 with (Z.ones 4). rewrite Z.land_ones by lia.
      apply Z.mod_pos_bound. lia.
    + rewrite Z.shiftr_div_pow2 by lia. change (2 ^ 4) with 16.
      split; [apply Z.div_pos; lia | apply Z.div_lt_upper_bound; lia].
Qed.

Lemma hexdigest_shape (msg : list Z) :
  String.length (SHA256.hexdigest msg) = 64%nat
  /\ all_chars is_lower_hex (SHA256.hexdigest msg) = true.
Proof.
  unfold SHA256.hexdigest.
  pose proof (digest_words_length msg) as Hlen.
  assert (Hbytes : forall ws,
            Forall (fun b => 0 <= b < 256) (flat_map (SHA256.be_bytes 4) ws)
            /\ length (flat_map (SHA256.be_bytes 4) ws) = (4 * length ws)%nat).
  { induction ws as [|x ws [IHr IHl]]; [split; [constructor|reflexivity]|].
    change (flat_map (SHA256.be_bytes 4) (x :: ws))
      with (SHA256.be_bytes 4 x ++ flat_map (SHA256.be_bytes 4) ws)%list.
    split.
    - apply Forall_app. split; [apply be_bytes_range | exact IHr].
    - rewrite length_app, be_bytes_length, IHl. simpl. lia. }
  destruct (Hbytes (SHA256.digest_words msg)) as [Hrange Hl].
  destruct (hex_of_bytes_shape _ Hrange) as [Hlen' Hhex].
  split; [|exact Hhex]. rewrite Hlen', Hl, Hlen. reflexivity.
Qed.

(** X6. The [sha256] field of a model, when it is not null, is a string of
    64 lowercase hexadecimal digits. *)
Theorem sha256_field_is_64_hex_digits (w : World) (raw : string) (p : PostOut) (h : string) :
  post_route w raw = (200, Model p) ->
  sha256 p = Some h ->
  String.length h = 64%nat /\ all_chars is_lower_hex h = true.
Proof.
  intros Hp. apply post_route_resolves in Hp.
  assert (Hsha : forall t, sha_of t = Some h ->
                   String.length h = 64%nat /\ all_chars is_lower_hex h = true).
  { intros [t|]; simpl; [|discriminate].
    destruct (PyStr.truthy t); [|discriminate].
    intros [= <-]. apply hexdigest_shape. }
  destruct Hp as [head q Hget Hq | head e r soup Hget Hlib Hget2 Hok Hsoup].
  - destruct (structured_attempt_Ret _ _ _ Hq)
      as (items & hh & t & _ & _ & _ & _ & _ & Hq_sha & _).
    rewrite Hq_sha. apply Hsha.
  - intros Hs. exact (Hsha _ Hs).
Qed.

Lemma sha256_field_is_64_hex_digits_witness :
  exists p h,
    post_route Fixtures.custom_domain_world Fixtures.raw_url = (200, Model p)
    /\ sha256 p = Some h
    /\ String.length h = 64%nat.
Proof.
  eexists. eexists. split; [vm_compute; reflexivity|]. split; [reflexivity|].
  apply (sha256_field_is_64_hex_digits Fixtures.custom_domain_world
           Fixtures.raw_url _ _ ltac:(vm_compute; reflexivity) eq_refl).
Defined.

(** X7. Fields that [PostOut] declares optional but that [get_post] always
    fills: the canonical URL of every model; and, in a model of the generic
    path, the HTML and the text, where the HTML is the body of the second
    response as received. *)
Theorem fields_always_filled (w : World) (raw : string) (p : PostOut) :
  post_route w raw = (200, Model p) ->
  canonical_url p <> None
  /\ (source p = "generic-fetch" ->
      text p <> None
      /\ exists head r,
           client_get w 0 raw = Ret head
           /\ client_get w 1 (httpx.url head) = Ret r
           /\ html p = Some (httpx.text r)).
Proof.
  intros Hp. apply post_route_resolves in Hp.
  destruct Hp as [head q Hget Hq | head e r soup Hget Hlib Hget2 Hok Hsoup].
  - destruct (structured_attempt_Ret _ _ _ Hq)
      as (items & h & t & _ & _ & _ & Hs & _ & _ & _ & Hc & Hvalid).
    split.
    + rewrite Hc. unfold py_or in *.
      destruct (truth (default PyNone (items !! "canonical_url"))) eqn:Htruth;
        [|discriminate].
      destruct (default PyNone (items !! "canonical_url")); discriminate.
    + rewrite Hs. discriminate.
  - simpl. split; [discriminate|].
    intros _. split; [discriminate|]. exists head, r. auto.
Qed.

Lemma fields_always_filled_witness :
  exists p,
    post_route Fixtures.blank_page_world Fixtures.raw_url = (200, Model p)
    /\ canonical_url p <> None.
Proof.
  eexists. split; [vm_compute; reflexivity|].
  apply (fields_always_filled Fixtures.blank_page_world Fixtures.raw_url).
  vm_compute. reflexivity.
Defined.

(* ===================================================================== *)
(** ** More on the heuristic extractor *)
(* ===================================================================== *)

Lemma find_from_Some_tag (name : string) (n i : node) :
  find_from name n = Some i -> exists a cs, i = Tag name a cs.
Proof.
  revert i. induction n as [k s|nm a cs IH] using node_tree_ind; intros i; simpl.
  - discriminate.
  - destruct (String.eqb nm name) eqn:Hnm.
    + apply String.eqb_eq in Hnm as ->. intros [= <-]. eauto.
    + intros Hi. apply first_some_Some in Hi as (c & Hin & Hc).
      rewrite List.Forall_forall in IH. exact (IH c Hin i Hc).
Qed.

Lemma find_Some_tag (name : string) (t i : node) :
  find name t = Some i -> exists a cs, i = Tag name a cs.
Proof.
  destruct t as [k s|nm a cs]; simpl; [discriminate|].
  intros Hi. apply first_some_Some in Hi as (c & Hin & Hc).
  exact (find_from_Some_tag name c i Hc).
Qed.

(** X8. The title is tested before it is stripped: a [<title>] whose string
    is not empty gives the stripped string as title, also when nothing is
    left of it; the title is null only when there is no [<title>], when the
    first one has no single string, or when its string is empty. *)
Theorem title_is_tested_before_it_is_stripped
    (BeautifulSoup : string -> outcome exn node) (html : string) (soup : node) :
  BeautifulSoup html = Ret soup ->
  exists text title hero,
    _readability_extract BeautifulSoup html = Ret (text, title, hero)
    /\ (forall t s, find "title" soup = Some t -> dot_string t = Some s ->
                    s <> "" -> title = Some (PyStr.strip s))
    /\ (title = None <->
        find "title" soup = None
        \/ exists t, find "title" soup = Some t
                     /\ (dot_string t = None \/ dot_string t = Some "")).
Proof.
  intros Hsoup. rewrite readability_run, Hsoup.
  eexists _, (title_of soup), _. split; [reflexivity|].
  unfold title_of. destruct (find "title" soup) as [t|].
  - destruct (dot_string t) as [s|] eqn:Hs.
    + destruct s as [|c s]; simpl.
      * split; [intros t' s' [= <-]; rewrite Hs; intros [= <-] Hne; contradiction|].
        split; [intros _; right; exists t; auto | reflexivity].
      * split; [intros t' s' [= <-]; rewrite Hs; intros [= <-] _; reflexivity|].
        split; [discriminate|].
        intros [Hnone | (t' & Ht' & Hd)]; [discriminate|].
        injection Ht' as <-. rewrite Hs in Hd. destruct Hd; discriminate.
    + split; [intros t' s' [= <-]; rewrite Hs; discriminate|].
      split; [intros _; right; exists t; auto | reflexivity].
  - split; [discriminate|]. split; [auto | reflexivity].
Qed.

Lemma title_is_tested_before_it_is_stripped_witness :
  exists text hero,
    _readability_extract Fixtures.html_parser blank_title_html
    = Ret (text, Some "", hero).
Proof.
  destruct (Fixtures.html_parser blank_title_html) as [soup|e] eqn:Hsoup;
    [|vm_compute in Hsoup; discriminate].
  destruct (title_is_tested_before_it_is_stripped Fixtures.html_parser
              blank_title_html soup Hsoup)
    as (text & title & hero & Hrun & Hstrip & _).
  vm_compute in Hsoup. injection Hsoup as <-.
  exists text, hero. rewrite Hrun.
  rewrite (Hstrip (Tag "title" ∅ [Str NavigableString " "]) " ");
    [reflexivity | reflexivity | reflexivity | discriminate].
Defined.

(** X9. A hero image is never the empty string, and it is the [src]
    attribute of an [<img>] tag: the first one of the content region, or,
    when the region has none, the first one of the document. *)
Theorem hero_is_the_src_of_an_img
    (BeautifulSoup : string -> outcome exn node) (html : string) (soup : node)
    (text : string) (title : option string) (src : string) :
  BeautifulSoup html = Ret soup ->
  _readability_extract BeautifulSoup html = Ret (text, title, Some src) ->
  src <> ""
  /\ exists a cs,
       a !! "src" = Some src
       /\ (find "img" (content_region soup) = Some (Tag "img" a cs)
           \/ (find "img" (content_region soup) = None
               /\ find "img" soup = Some (Tag "img" a cs))).
Proof.
  intros Hsoup. rewrite readability_run, Hsoup. intros [= _ _ Hhero].
  unfold hero_image_of in Hhero.
  destruct (find "img" (content_region soup)) as [i|] eqn:Hin.
  - destruct (find_Some_tag _ _ _ Hin) as (a & cs & ->). simpl in Hhero.
    destruct (a !! "src") as [s|] eqn:Ha; [|discriminate].
    destruct s as [|c s]; [discriminate|]. injection Hhero as <-.
    split; [discriminate|]. exists a, cs. auto.
  - destruct (find "img" soup) as [i|] eqn:Hdoc; [|discriminate].
    destruct (find_Some_tag _ _ _ Hdoc) as (a & cs & ->). simpl in Hhero.
    destruct (a !! "src") as [s|] eqn:Ha; [|discriminate].
    destruct s as [|c s]; [discriminate|]. injection Hhero as <-.
    split; [discriminate|]. exists a, cs. auto.
Qed.

Lemma hero_is_the_src_of_an_img_witness :
  "/h.png" <> ""
  /\ exists (a : gmap string string), a !! "src" = Some "/h.png".
Proof.
  destruct (Fixtures.html_parser Fixtures.article_html) as [soup|e] eqn:Hsoup;
    [|vm_compute in Hsoup; discriminate].
  destruct (hero_is_the_src_of_an_img Fixtures.html_parser Fixtures.article_html
              soup "Hello" (Some "T") "/h.png" Hsoup
              ltac:(vm_compute; reflexivity))
    as (Hne & a & cs & Ha & _).
  split; [exact Hne | exists a; exact Ha].
Defined.

Lemma all_strings_nonempty (n : node) : Forall (fun s => s <> "") (all_strings n).
Proof.
  induction n as [k s|nm a cs IH] using node_tree_ind; simpl.
  - destruct (interesting k); [|constructor].
    destruct (PyStr.strip s) as [|c t]; simpl; constructor; [discriminate|constructor].
  - induction IH as [|c cs Hc _ IHcs]; simpl; [constructor|].
    apply Forall_app. split; assumption.
Qed.

Lemma join_empty (sep : string) (l : list string) :
  Forall (fun s => s <> "") l -> PyStr.join sep l = "" -> l = [].
Proof.
  intros Hl. destruct Hl as [|x l Hx Hl]; [reflexivity|].
  destruct x as [|c x]; [contradiction|].
  destruct l; simpl; discriminate.
Qed.

Lemma all_strings_nil_iff (n : node) :
  all_strings n = []
  <-> forall k s, holds_string n k s -> interesting k = true -> PyStr.strip s = "".
Proof.
  induction n as [k s|nm a cs IH] using node_tree_ind.
  - simpl. split.
    + intros Hnil k' s' Hin Hk. inversion Hin; subst.
      rewrite Hk in Hnil. destruct (PyStr.strip s'); [reflexivity | discriminate].
    + intros Hall. destruct (interesting k) eqn:Hk; [|reflexivity].
      rewrite (Hall k s (holds_here k s) Hk). reflexivity.
  - simpl. split.
    + intros Hnil k s Hin Hk. inversion Hin as [|nm' a' cs' c k' s' Hc Hbelow]; subst.
      rewrite List.Forall_forall in IH. apply (IH c Hc) with (k := k); [|assumption..].
      clear - Hnil Hc. induction cs as [|c' cs IHcs]; [contradiction|].
      simpl in Hnil. apply app_eq_nil in Hnil as [Hc' Hcs].
      destruct Hc as [<- | Hc]; [exact Hc' | exact (IHcs Hcs Hc)].
    + intros Hall. induction IH as [|c cs Hc _ IHcs]; [reflexivity|].
      simpl. rewrite (proj2 Hc), IHcs; [reflexivity| |].
      * intros k s Hin. apply Hall. inversion Hin; subst.
        apply holds_below with (c := c0); [right; assumption | assumption].
      * intros k s Hin. apply Hall.
        apply holds_below with (c := c); [left; reflexivity | assumption].
Qed.

(** X10. A model of the generic path has no hash exactly when its text is
    the empty string, and that is exactly when [get_text] collects nothing
    from the content region of the page: every string of the region that it
    keeps (plain strings and CDATA sections; comments, scripts, styles and
    the like are not kept) is empty once stripped. *)
Theorem generic_hash_is_null_iff_page_is_blank
    (w : World) (raw : string) head e r soup (p : PostOut) :
  client_get w 0 raw = Ret head ->
  structured_attempt w (httpx.url head) = Raise e ->
  client_get w 1 (httpx.url head) = Ret r ->
  httpx.is_success r = true ->
  BeautifulSoup w (httpx.text r) = Ret soup ->
  post_route w raw = (200, Model p) ->
  (sha256 p = None <-> text p = Some "")
  /\ (text p = Some "" <-> all_strings (content_region soup) = [])
  /\ (text p = Some ""
      <-> forall k s, holds_string (content_region soup) k s ->
                      interesting k = true -> PyStr.strip s = "").
Proof.
  intros Hget Hlib Hget2 Hok Hsoup Hp. apply post_route_ok in Hp.
  rewrite (get_post_generic _ _ head e r soup Hget Hlib Hget2 Hok Hsoup) in Hp.
  injection Hp as <-. simpl. rewrite <- all_strings_nil_iff. unfold get_text.
  destruct (PyStr.join PyStr.newline (all_strings (content_region soup)))
    as [|c t] eqn:Hjoin; simpl.
  - pose proof (join_empty _ _ (all_strings_nonempty _) Hjoin) as Hnil.
    split; [split; reflexivity|]. split; (split; [intros _; exact Hnil | reflexivity]).
  - split; [split; discriminate|].
    split; (split; [discriminate|]); intros Hnil; rewrite Hnil in Hjoin; discriminate.
Qed.

Lemma generic_hash_is_null_iff_page_is_blank_witness :
  exists p,
    post_route Fixtures.blank_page_world Fixtures.raw_url = (200, Model p)
    /\ (sha256 p = None <-> text p = Some "").
Proof.
  destruct (Fixtures.html_parser Fixtures.blank_html) as [soup|e] eqn:Hsoup;
    [|vm_compute in Hsoup; discriminate].
  eexists. split; [vm_compute; reflexivity|].
  apply (generic_hash_is_null_iff_page_is_blank Fixtures.blank_page_world
           Fixtures.raw_url
           {| httpx.url := Fixtures.final_url; httpx.status_code := 200;
              httpx.text := "" |}
           Fixtures.unsupported
           {| httpx.url := Fixtures.fetched_url; httpx.status_code := 200;
              httpx.text := Fixtures.blank_html |}
           soup _ eq_refl eq_refl eq_refl eq_refl Hsoup).
  vm_compute. reflexivity.
Defined.

(* ===================================================================== *)
(** ** The root route *)
(* ===================================================================== *)

Lemma all_chars_app (f : ascii -> bool) (a b : string) :
  all_chars f (a ++ b) = all_chars f a && all_chars f b.
Proof.
  induction a as [|c a IH]; [reflexivity|].
  change (f c && all_chars f (a ++ b) = f c && all_chars f a && all_chars f b).
  rewrite IH. apply andb_assoc.
Qed.

Lemma quote_app (a b : string) : quote (a ++ b) = quote a ++ quote b.
Proof.
  induction a as [|c a IH]; [reflexivity|].
  change (quote_byte c ++ quote (a ++ b) = (quote_byte c ++ quote a) ++ quote b).
  rewrite IH. symmetry. apply append_assoc.
Qed.

Lemma quote_safe (s : string) : all_chars is_safe s = true -> quote s = s.
Proof.
  induction s as [|c s IH]; [reflexivity|].
  change (is_safe c && all_chars is_safe s = true -> quote_byte c ++ quote s = String c s).
  rewrite andb_true_iff. intros [Hc Hs].
  unfold quote_byte. rewrite Hc, (IH Hs). reflexivity.
Qed.

Lemma upper_hex_digit_safe (n : Z) :
  0 <= n < 16 -> is_safe (upper_hex_digit n) = true.
Proof.
  intros Hn.
  assert (Hall : forallb (fun k => is_safe (upper_hex_digit (Z.of_nat k)))
                         (seq 0 16) = true) by reflexivity.
  rewrite forallb_forall in Hall.
  specialize (Hall (Z.to_nat n)). rewrite Z2Nat.id in Hall by lia.
  apply Hall, in_seq. lia.
Qed.

Lemma quote_byte_safe (c : ascii) : all_chars is_safe (quote_byte c) = true.
Proof.
  unfold quote_byte. destruct (is_safe c) eqn:Hc.
  - simpl. rewrite Hc. reflexivity.
  - assert (Hn : 0 <= Z.of_N (N_of_ascii c) < 256).
    { pose proof (N_ascii_bounded c). lia. }
    simpl. rewrite !upper_hex_digit_safe; [reflexivity| |].
    + change 15 with (Z.ones 4). rewrite Z.land_ones by lia.
      apply Z.mod_pos_bound. lia.
    + rewrite Z.shiftr_div_pow2 by lia. change (2 ^ 4) with 16.
      split; [apply Z.div_pos; lia | apply Z.div_lt_upper_bound; lia].
Qed.

Lemma quote_is_safe (s : string) : all_chars is_safe (quote s) = true.
Proof.
  induction s as [|c s IH]; [reflexivity|].
  change (all_chars is_safe (quote_byte c ++ quote s) = true).
  rewrite all_chars_app, quote_byte_safe, IH. reflexivity.
Qed.

Lemma quote_quote (s : string) : quote (quote s) = quote s.
Proof. apply quote_safe, quote_is_safe. Qed.

Lemma quote_not_empty (s : string) : s <> "" -> quote s <> "".
Proof.
  destruct s as [|c s]; [contradiction|]. intros _.
  change (quote_byte c ++ quote s <> "").
  unfold quote_byte. destruct (is_safe c); discriminate.
Qed.

Lemma root_run (query_params_get : string -> option string) :
  root query_params_get
  = match query_params_get "url" with
    | Some (String c q) => Redirect 307 ("/post?url=" ++ quote (String c q))
    | _ => Returned (JObject [("ok", JBool true);
                              ("routes", JArray [JString "/"; JString "/healthz";
                                                 JString "/post"])])
    end.
Proof.
  unfold root. destruct (query_params_get "url") as [[|c q]|]; reflexivity.
Qed.

(** X11. [root] redirects, with status 307, exactly when the query has a
    [url] parameter that is not empty; the [Location] is [/post?url=]
    followed by the parameter percent-quoted: the bytes other than ASCII
    letters, digits, [_.-~] and [:/%#?=@[]!$&'()*+,;] become [%XX]. A
    parameter made of safe characters is forwarded as it came. The percent
    sign itself is not escaped, so that a parameter and its quoted form are
    redirected to the same [Location]. Without the parameter, or with an
    empty one, [root] returns the descriptor with the three routes. *)
Theorem root_redirects_iff_url_is_given (query_params_get : string -> option string) :
  (forall status location,
     root query_params_get = Redirect status location <->
     status = 307
     /\ exists q, query_params_get "url" = Some q /\ q <> ""
                  /\ location = "/post?url=" ++ quote q)
  /\ (forall q, query_params_get "url" = Some q -> q <> "" ->
        all_chars is_safe q = true ->
        root query_params_get = Redirect 307 ("/post?url=" ++ q))
  /\ (forall q, query_params_get "url" = Some q -> q <> "" ->
        root (fun _ => Some (quote q)) = root query_params_get)
  /\ (query_params_get "url" = None \/ query_params_get "url" = Some "" <->
      root query_params_get
      = Returned (JObject [("ok", JBool true);
                           ("routes", JArray [JString "/"; JString "/healthz";
                                              JString "/post"])])).
Proof.
  rewrite root_run. split; [|split; [|split]].
  - intros status location.
    destruct (query_params_get "url") as [[|c q]|]; split.
    + discriminate.
    + intros (_ & q & [= <-] & Hne & _). contradiction.
    + intros [= <- <-]. split; [reflexivity|].
      exists (String c q). repeat split. discriminate.
    + intros (-> & q' & [= <-] & _ & ->). reflexivity.
    + discriminate.
    + intros (_ & q & Hq & _). discriminate.
  - intros q -> Hne Hsafe. destruct q as [|c q]; [contradiction|].
    rewrite (quote_safe _ Hsafe). reflexivity.
  - intros q -> Hne. destruct q as [|c q]; [contradiction|].
    rewrite root_run. pose proof (quote_not_empty (String c q) Hne) as Hq.
    destruct (quote (String c q)) as [|c' q'] eqn:Hquote; [contradiction|].
    rewrite <- Hquote, quote_quote. reflexivity.
  - destruct (query_params_get "url") as [[|c q]|].
    + split; [reflexivity | auto].
    + split; [intros [H | H]; discriminate | discriminate].
    + split; [reflexivity | auto].
Qed.

Lemma root_redirects_iff_url_is_given_witness :
  root (fun _ => Some "http://x/a%20b")
  = root (fun k => if String.eqb k "url" then Some "http://x/a b" else None).
Proof.
  destruct (root_redirects_iff_url_is_given
              (fun k => if String.eqb k "url" then Some "http://x/a b" else None))
    as (_ & _ & Hquoted & _).
  exact (Hquoted "http://x/a b" eq_refl ltac:(discriminate)).
Defined.
